(** * Usage-statistics pipeline of great_expectations: anonymizer and handler

    A shallow embedding of
    [great_expectations/core/logging/anonymizer.py] and
    [great_expectations/core/logging/usage_statistics.py], followed by the
    properties of the dispatch subsystem stated over it. *)

From Stdlib Require Import NArith ZArith List String Ascii Bool Lia.
Import ListNotations.
Local Open Scope string_scope.
Local Open Scope list_scope.

Set Implicit Arguments.
Set Warnings "-register-all".
#[local] Unset Elimination Schemes.

(** ** Python values, dictionaries and exceptions *)

(** The fragment of Python's object universe that flows through the two
    modules.  A [str] is kept as the byte string of its UTF-8 encoding; a
    [dict] with string keys is an association list in insertion order; an
    instance of a user class is a reference whose attributes live in the
    world; a [UsageStatisticsHandler] instance is a reference of its own. *)
Inductive value : Type :=
| VNone
| VBool (b : bool)
| VInt (z : Z)
| VStr (s : string)
| VList (l : list value)
| VDict (d : list (string * value))
| VObj (r : nat)
| VHandler (hid : nat).

Definition dict : Type := list (string * value).

(** [d.get(k)] *)
Fixpoint dict_get (k : string) (d : dict) : option value :=
  match d with
  | [] => None
  | (k', v) :: rest => if String.eqb k k' then Some v else dict_get k rest
  end.

(** [d[k] = v]: an existing key keeps its position, a new one goes last. *)
Fixpoint dict_set (k : string) (v : value) (d : dict) : dict :=
  match d with
  | [] => [(k, v)]
  | (k', v') :: rest =>
      if String.eqb k k' then (k', v) :: rest else (k', v') :: dict_set k v rest
  end.

(** Python truth value of an object ([bool(x)]). *)
Definition truthy (v : value) : bool :=
  match v with
  | VNone => false
  | VBool b => b
  | VInt z => negb (Z.eqb z 0)
  | VStr s => negb (String.eqb s "")
  | VList l => match l with [] => false | _ => true end
  | VDict d => match d with [] => false | _ => true end
  | VObj _ => true
  | VHandler _ => true
  end.

(** Truth value of [d.get(k)], where a missing key reads [None]. *)
Definition truthy_opt (o : option value) : bool :=
  match o with
  | Some v => truthy v
  | None => false
  end.

(** Classes of exceptions deriving from [Exception] that the two modules and
    their libraries raise. *)
Inductive exn_class : Type :=
| TypeError
| KeyError
| IndexError
| AttributeError
| ValidationError
| SchemaError
| ConnectionError
| RuntimeError.

Record exn : Type := Exn { exn_type : exn_class; exn_msg : string }.

Definition exn_class_eqb (a b : exn_class) : bool :=
  match a, b with
  | TypeError, TypeError
  | KeyError, KeyError
  | IndexError, IndexError
  | AttributeError, AttributeError
  | ValidationError, ValidationError
  | SchemaError, SchemaError
  | ConnectionError, ConnectionError
  | RuntimeError, RuntimeError => true
  | _, _ => false
  end.

(** Outcome of a call: a returned value or a raised exception. *)
Inductive result (A : Type) : Type :=
| Ok (a : A)
| Raise (e : exn).

Arguments Ok {A} a.
Arguments Raise {A} e.

(** ** hashlib.md5 *)

Module Md5.

Local Open Scope N_scope.

Definition mask32 : N := 4294967295.

Definition w32 (x : N) : N := N.land x mask32.

Definition add32 (x y : N) : N := w32 (x + y).

Definition not32 (x : N) : N := N.lxor (w32 x) mask32.

Definition rotl32 (x c : N) : N :=
  w32 (N.lor (N.shiftl x c) (N.shiftr (w32 x) (32 - c))).

(** Per-round additive constants, [floor(2^32 * abs(sin(i + 1)))]. *)
Definition K : list N :=
  [ 3614090360; 3905402710; 606105819; 3250441966;
    4118548399; 1200080426; 2821735955; 4249261313;
    1770035416; 2336552879; 4294925233; 2304563134;
    1804603682; 4254626195; 2792965006; 1236535329;
    4129170786; 3225465664; 643717713; 3921069994;
    3593408605; 38016083; 3634488961; 3889429448;
    568446438; 3275163606; 4107603335; 1163531501;
    2850285829; 4243563512; 1735328473; 2368359562;
    4294588738; 2272392833; 1839030562; 4259657740;
    2763975236; 1272893353; 4139469664; 3200236656;
    681279174; 3936430074; 3572445317; 76029189;
    3654602809; 3873151461; 530742520; 3299628645;
    4096336452; 1126891415; 2878612391; 4237533241;
    1700485571; 2399980690; 4293915773; 2240044497;
    1873313359; 4264355552; 2734768916; 1309151649;
    4149444226; 3174756917; 718787259; 3951481745 ].

(** Per-round left-rotation amounts. *)
Definition S : list N :=
  [ 7; 12; 17; 22; 7; 12; 17; 22; 7; 12; 17; 22; 7; 12; 17; 22;
    5; 9; 14; 20; 5; 9; 14; 20; 5; 9; 14; 20; 5; 9; 14; 20;
    4; 11; 16; 23; 4; 11; 16; 23; 4; 11; 16; 23; 4; 11; 16; 23;
    6; 10; 15; 21; 6; 10; 15; 21; 6; 10; 15; 21; 6; 10; 15; 21 ].

Definition rounds : list (N * (N * N)) :=
  combine (map N.of_nat (seq 0 64)) (combine K S).

Record state : Type := State { sA : N; sB : N; sC : N; sD : N }.

Definition init : state :=
  State 1732584193 4023233417 2562383102 271733878.

(** Little-endian 32-bit word starting at byte [4 * g] of a block. *)
Definition word_at (block : list N) (g : N) : N :=
  let b (j : N) := nth (N.to_nat (4 * g + j)) block 0 in
  b 0 + 256 * b 1 + 65536 * b 2 + 16777216 * b 3.

Definition step (block : list N) (st : state) (r : N * (N * N)) : state :=
  let '(i, (k, s)) := r in
  let '(State a b c d) := st in
  let '(f, g) :=
    if i <? 16 then (N.lor (N.land b c) (N.land (not32 b) d), i)
    else if i <? 32 then
      (N.lor (N.land d b) (N.land (not32 d) c), (5 * i + 1) mod 16)
    else if i <? 48 then (N.lxor b (N.lxor c d), (3 * i + 5) mod 16)
    else (N.lxor c (N.lor b (not32 d)), (7 * i) mod 16) in
  let f' := add32 (add32 (add32 f a) k) (word_at block g) in
  State d (add32 b (rotl32 f' s)) b c.

Definition compress (st : state) (block : list N) : state :=
  let '(State a b c d) := fold_left (step block) rounds st in
  State (add32 (sA st) a) (add32 (sB st) b) (add32 (sC st) c)
        (add32 (sD st) d).

(** [n] little-endian bytes of [x]. *)
Fixpoint le_bytes (n : nat) (x : N) : list N :=
  match n with
  | O => []
  | Datatypes.S n' => (x mod 256) :: le_bytes n' (x / 256)
  end.

(** The message followed by 0x80, zeros up to 56 modulo 64, and the bit
    length on eight bytes. *)
Definition pad (msg : list N) : list N :=
  let len := N.of_nat (List.length msg) in
  let r := (len + 1) mod 64 in
  let zeros := if r <=? 56 then 56 - r else 120 - r in
  msg ++ [128] ++ repeat 0 (N.to_nat zeros) ++ le_bytes 8 (8 * len).

Fixpoint blocks (fuel : nat) (l : list N) (st : state) : state :=
  match fuel with
  | O => st
  | Datatypes.S fuel' =>
      match l with
      | [] => st
      | _ => blocks fuel' (skipn 64 l) (compress st (firstn 64 l))
      end
  end.

(** [md5(data).digest()] as sixteen bytes. *)
Definition digest (msg : list N) : list N :=
  let padded := pad msg in
  let '(State a b c d) := blocks (List.length padded) padded init in
  le_bytes 4 a ++ le_bytes 4 b ++ le_bytes 4 c ++ le_bytes 4 d.

Definition hex_digit (n : N) : ascii :=
  nth (N.to_nat (n mod 16)) (list_ascii_of_string "0123456789abcdef") "0"%char.

Definition hex_byte (b : N) : list ascii := [hex_digit (b / 16); hex_digit b].

(** [md5(data).hexdigest()] *)
Definition hexdigest (msg : list N) : string :=
  string_of_list_ascii (flat_map hex_byte (digest msg)).

End Md5.

(** [s.encode('utf-8')] on a string kept as its UTF-8 bytes. *)
Definition encode_utf8 (s : string) : list N :=
  map N_of_ascii (list_ascii_of_string s).

(** ** anonymizer.py *)

(** Binding in the exception monad: the first raise ends the computation. *)
Definition bind_r {A B : Type} (c : result A) (k : A -> result B) : result B :=
  match c with
  | Ok a => k a
  | Raise e => Raise e
  end.

Notation "x <-r c ;; k" := (bind_r c (fun x => k))
  (at level 61, c at next level, right associativity).

(** A class object: its identity, its [__name__] and the identities of its
    proper ancestors (the tail of its [__mro__]). *)
Record pyclass : Type :=
  { cls_id : nat; __name__ : string; cls_ancestors : list nat }.

(** [c == g] on class objects is identity. *)
Definition class_eq (c g : pyclass) : bool := Nat.eqb (cls_id c) (cls_id g).

(** [issubclass(c, g)]: [g] occurs in the method resolution order of [c]. *)
Definition issubclass (c g : pyclass) : bool :=
  class_eq c g || existsb (Nat.eqb (cls_id g)) (cls_ancestors c).

Record Anonymizer : Type := { _salt : string }.

(** [Anonymizer.__init__]; [token_hex] is what [secrets.token_hex(8)] would
    return. *)
Definition Anonymizer_init (salt : value) (token_hex : string) : Anonymizer :=
  match salt with
  | VStr s => {| _salt := s |}
  | _ => {| _salt := token_hex |}
  end.

Definition anonymize (self : Anonymizer) (string_ : value) : result string :=
  match string_ with
  | VStr s => Ok (Md5.hexdigest (encode_utf8 (_salt self ++ s)))
  | _ => Raise (Exn TypeError "can only concatenate str to str")
  end.

(** The [for ge_class in ge_classes] loop, left at the first match. *)
Fixpoint anonymize_object_info_loop (self : Anonymizer) (object_class : pyclass)
    (anonymized_info_dict : dict) (ge_classes : list pyclass) : result dict :=
  match ge_classes with
  | [] => Ok anonymized_info_dict
  | ge_class :: rest =>
      if issubclass object_class ge_class then
        let d := dict_set "parent_class" (VStr (__name__ ge_class))
                          anonymized_info_dict in
        if negb (class_eq object_class ge_class) then
          h <-r anonymize self (VStr (__name__ object_class)) ;;
          Ok (dict_set "anonymized_class" (VStr h) d)
        else Ok d
      else anonymize_object_info_loop self object_class anonymized_info_dict rest
  end.

(** [object_class] is [object_.__class__], the only part of the object that
    is read. *)
Definition anonymize_object_info (self : Anonymizer) (object_class : pyclass)
    (anonymized_info_dict : dict) (ge_classes : list pyclass) : result dict :=
  d <-r anonymize_object_info_loop self object_class anonymized_info_dict
          ge_classes ;;
  if negb (truthy_opt (dict_get "parent_class" d)) then
    let d := dict_set "parent_class" (VStr "__not_recognized__") d in
    h <-r anonymize self (VStr (__name__ object_class)) ;;
    Ok (dict_set "anonymized_class" (VStr h) d)
  else Ok d.

(** ** usage_statistics.py *)

(** *** State and exceptions *)

(** A computation over a mutable state [S] that returns or raises; what was
    mutated before a raise stays mutated. *)
Definition M (S A : Type) : Type := S -> result A * S.

Definition ret {S A : Type} (a : A) : M S A := fun s => (Ok a, s).

Definition raise {S A : Type} (e : exn) : M S A := fun s => (Raise e, s).

Definition bind {S A B : Type} (c : M S A) (k : A -> M S B) : M S B :=
  fun s =>
    match c s with
    | (Ok a, s') => k a s'
    | (Raise e, s') => (Raise e, s')
    end.

Notation "x <- c ;; k" := (bind c (fun x => k))
  (at level 61, c at next level, right associativity).

(** A call whose outcome does not depend on the state. *)
Definition lift_r {S A : Type} (r : result A) : M S A := fun s => (r, s).

(** [try: body except Exception: handler(e)] *)
Definition try_except {S A : Type} (body : M S A) (handler : exn -> M S A)
  : M S A :=
  fun s =>
    match body s with
    | (Ok a, s') => (Ok a, s')
    | (Raise e, s') => handler e s'
    end.

(** [v[k]] *)
Definition subscript (v : value) (k : string) : result value :=
  match v with
  | VDict d =>
      match dict_get k d with
      | Some x => Ok x
      | None => Raise (Exn KeyError k)
      end
  | _ => Raise (Exn TypeError "object is not subscriptable")
  end.

(** [v[k] = x], giving the object after the assignment. *)
Definition setitem (v : value) (k : string) (x : value) : result value :=
  match v with
  | VDict d => Ok (VDict (dict_set k x d))
  | _ => Raise (Exn TypeError "object does not support item assignment")
  end.

(** [v == s] for a string literal [s]. *)
Definition eq_str (v : value) (s : string) : bool :=
  match v with
  | VStr s' => String.eqb s' s
  | _ => false
  end.

(** *** Time stamps *)

(** A reading of [datetime.datetime.utcnow()]; every field is within the
    range [datetime] keeps it in (the year at most 9999, the microsecond
    below a million). *)
Record datetime : Type :=
  { year : N; month : N; day : N; hour : N; minute : N; second : N;
    microsecond : N }.

Definition digit (n : N) : ascii := ascii_of_N (48 + n mod 10).

(** [n] in decimal on exactly [width] characters, zero-padded. *)
Fixpoint digits (width : nat) (n : N) : list ascii :=
  match width with
  | O => []
  | Datatypes.S w => digits w (n / 10) ++ [digit n]
  end.

(** [t.strftime("%Y-%m-%dT%H:%M:%S.%f")]: the year on four digits, the
    microsecond on six, the other fields on two. *)
Definition strftime (t : datetime) : list ascii :=
  digits 4 (year t) ++ ["-"%char] ++ digits 2 (month t) ++ ["-"%char]
  ++ digits 2 (day t) ++ ["T"%char] ++ digits 2 (hour t) ++ [":"%char]
  ++ digits 2 (minute t) ++ [":"%char] ++ digits 2 (second t) ++ ["."%char]
  ++ digits 6 (microsecond t).

(** [s[:-3]] *)
Definition drop_last3 (s : list ascii) : list ascii :=
  firstn (List.length s - 3) s.

(** *** The handler *)

(** An entry of the message queue. *)
Inductive qitem : Type :=
| Msg (m : value)
| STOP_SIGNAL.

(** The thread running [_requests_worker]: still in its loop, returned on
    the stop signal, or ended by an exception that escaped the loop. *)
Inductive worker : Type :=
| Running
| Exited
| Died (e : exn).

(** What the handler reads of the data context it was built for. *)
Record data_context : Type :=
  { instance_id : value;
    datasources : dict;
    stores : dict;
    validation_operators : dict }.

(** The attributes of a [UsageStatisticsHandler]; [posts] records the bodies
    handed to [session.post] by the worker, oldest first. *)
Record UsageStatisticsHandler : Type :=
  { _url : string;
    _data_context_id : value;
    _data_context_instance_id : value;
    _data_context : data_context;
    _ge_version : value;
    _message_queue : list qitem;
    _worker : worker;
    posts : list value }.

Definition with_queue (q : list qitem) (h : UsageStatisticsHandler)
  : UsageStatisticsHandler :=
  {| _url := _url h;
     _data_context_id := _data_context_id h;
     _data_context_instance_id := _data_context_instance_id h;
     _data_context := _data_context h;
     _ge_version := _ge_version h;
     _message_queue := q;
     _worker := _worker h;
     posts := posts h |}.

Definition with_worker (t : worker) (p : list value)
    (h : UsageStatisticsHandler) : UsageStatisticsHandler :=
  {| _url := _url h;
     _data_context_id := _data_context_id h;
     _data_context_instance_id := _data_context_instance_id h;
     _data_context := _data_context h;
     _ge_version := _ge_version h;
     _message_queue := _message_queue h;
     _worker := t;
     posts := p |}.

(** What the two modules import from outside themselves: the package
    version, the record schema of [great_expectations.core.logging.schemas],
    [jsonschema.validate], [great_expectations.core.nested_update] (which
    updates its first argument in place, so the dictionary after the call is
    returned next to the outcome), the [platform] and [sys] readings, the
    three domain anonymizers (given the data context id they were built
    with) and [requests.Session.post]. *)
Record externals : Type :=
  { ge_version : value;
    usage_statistics_record_schema : value;
    jsonschema_validate : value -> value -> result unit;
    nested_update : dict -> value -> result unit * dict;
    platform_system : string;
    platform_release : string;
    version_info : string;
    anonymize_datasource_info : value -> value -> result value;
    anonymize_store_info : value -> string -> value -> result value;
    anonymize_validation_operator_info :
      value -> string -> value -> result value;
    session_post : string -> value -> result N }.

(** A list comprehension whose element expression may raise. *)
Fixpoint map_r {A B : Type} (f : A -> result B) (l : list A)
  : result (list B) :=
  match l with
  | [] => Ok []
  | x :: rest => y <-r f x ;; ys <-r map_r f rest ;; Ok (y :: ys)
  end.

Definition is_none (v : value) : bool :=
  match v with
  | VNone => true
  | _ => false
  end.

Section Handler.

Variable L : externals.

(** [UsageStatisticsHandler.__init__]: the queue starts empty and the worker
    thread is started.  The registration of [_teardown] for the three signals
    and of [_close_worker] at exit is outside what is modelled here. *)
Definition UsageStatisticsHandler_init (data_context : data_context)
    (data_context_id : value) (usage_statistics_url : string)
  : UsageStatisticsHandler :=
  {| _url := usage_statistics_url;
     _data_context_id := data_context_id;
     _data_context_instance_id := instance_id data_context;
     _data_context := data_context;
     _ge_version := ge_version L;
     _message_queue := [];
     _worker := Running;
     posts := [] |}.

Definition build_init_payload (self : UsageStatisticsHandler) : result value :=
  let ctx := _data_context self in
  let id := _data_context_id self in
  ds <-r map_r (fun kv => anonymize_datasource_info L id (snd kv))
           (datasources ctx) ;;
  ss <-r map_r (fun kv => anonymize_store_info L id (fst kv) (snd kv))
           (stores ctx) ;;
  vs <-r map_r (fun kv =>
                  anonymize_validation_operator_info L id (fst kv) (snd kv))
           (validation_operators ctx) ;;
  Ok (VDict [ ("platform.system", VStr (platform_system L));
              ("platform.release", VStr (platform_release L));
              ("version_info", VStr (version_info L));
              ("anonymized_datasources", VList ds);
              ("anonymized_stores", VList ss);
              ("anonymized_validation_operators", VList vs) ]).

(** [now] is the reading of [datetime.datetime.utcnow()] taken by the
    call. *)
Definition build_envelope (self : UsageStatisticsHandler) (message : value)
    (now : datetime) : result value :=
  m <-r setitem message "version" (VStr "1.0.0") ;;
  m <-r setitem m "event_time"
          (VStr (string_of_list_ascii (drop_last3 (strftime now) ++ ["Z"%char]))) ;;
  m <-r setitem m "data_context_id" (_data_context_id self) ;;
  m <-r setitem m "data_context_instance_id" (_data_context_instance_id self) ;;
  m <-r setitem m "ge_version" (_ge_version self) ;;
  Ok m.

Definition validate_message (message schema : value) : result bool :=
  match jsonschema_validate L message schema with
  | Ok _ => Ok true
  | Raise e =>
      if exn_class_eqb (exn_type e) ValidationError then Ok false
      else Raise e
  end.

(** The state [emit] works on: the caller's message object, which it
    mutates in place, and the handler. *)
Definition emit_state : Type := (value * UsageStatisticsHandler)%type.

Definition read_message : M emit_state value := fun s => (Ok (fst s), s).

Definition write_message (m : value) : M emit_state unit :=
  fun s => (Ok tt, (m, snd s)).

Definition read_self : M emit_state UsageStatisticsHandler :=
  fun s => (Ok (snd s), s).

(** [self._message_queue.put(x)] on the unbounded queue. *)
Definition put (x : qitem) (self : UsageStatisticsHandler)
  : UsageStatisticsHandler :=
  with_queue (_message_queue self ++ [x]) self.

Definition emit_body (now : datetime) : M emit_state unit :=
  message <- read_message ;;
  self <- read_self ;;
  ev <- lift_r (subscript message "event") ;;
  _ <- (if eq_str ev "data_context.__init__" then
          p <- lift_r (build_init_payload self) ;;
          m <- lift_r (setitem message "event_payload" p) ;;
          write_message m
        else ret tt) ;;
  message <- read_message ;;
  m <- lift_r (build_envelope self message now) ;;
  _ <- write_message m ;;
  valid <- lift_r (validate_message m (usage_statistics_record_schema L)) ;;
  if negb valid then ret tt
  else fun s => (Ok tt, (fst s, put (Msg m) (snd s))).

Definition emit (now : datetime) : M emit_state unit :=
  try_except (emit_body now) (fun _ => ret tt).

(** One turn of the [while True] loop of [_requests_worker]; [None] when
    [get()] blocks on the empty queue or the thread has already ended. *)
Definition worker_turn (self : UsageStatisticsHandler)
  : option UsageStatisticsHandler :=
  match _worker self with
  | Running =>
      match _message_queue self with
      | [] => None
      | STOP_SIGNAL :: q =>
          Some (with_worker Exited (posts self) (with_queue q self))
      | Msg message :: q =>
          match session_post L (_url self) message with
          | Ok _ =>
              Some (with_worker Running (posts self ++ [message])
                      (with_queue q self))
          | Raise e =>
              Some (with_worker (Died e) (posts self ++ [message])
                      (with_queue q self))
          end
      end
  | _ => None
  end.

(** [self._worker.join()]: the worker takes its turns until its thread has
    ended; [None] when that never happens. *)
Fixpoint join (fuel : nat) (self : UsageStatisticsHandler)
  : option UsageStatisticsHandler :=
  match _worker self with
  | Running =>
      match fuel with
      | O => None
      | Datatypes.S fuel' =>
          match worker_turn self with
          | Some self' => join fuel' self'
          | None => None
          end
      end
  | _ => Some self
  end.

Definition _close_worker (self : UsageStatisticsHandler)
  : option UsageStatisticsHandler :=
  let self := put STOP_SIGNAL self in
  join (Datatypes.S (List.length (_message_queue self))) self.

End Handler.

(** *** The interceptor *)

(** The process as the interceptor sees it: the clock, the instance
    attributes of every object and the state of every handler. *)
Record world : Type :=
  { utcnow : datetime;
    attrs : nat -> dict;
    handlers : nat -> UsageStatisticsHandler }.

Definition set_handler (hid : nat) (h : UsageStatisticsHandler) (w : world)
  : world :=
  {| utcnow := utcnow w;
     attrs := attrs w;
     handlers := fun i => if Nat.eqb i hid then h else handlers w i |}.

(** [obj.name = v] *)
Definition setattr (r : nat) (name : string) (v : value) (w : world) : world :=
  {| utcnow := utcnow w;
     attrs := fun i => if Nat.eqb i r then dict_set name v (attrs w i)
                       else attrs w i;
     handlers := handlers w |}.

(** [getattr(o, name, default)] *)
Definition getattr (w : world) (o : value) (name : string) (default : value)
  : value :=
  match o with
  | VObj r =>
      match dict_get name (attrs w r) with
      | Some v => v
      | None => default
      end
  | _ => default
  end.

(** [args_array[0]] *)
Definition index0 (args_array : list value) : result value :=
  match args_array with
  | x :: _ => Ok x
  | [] => Raise (Exn IndexError "tuple index out of range")
  end.

Definition get_usage_statistics_handler (args_array : list value) (w : world)
  : value :=
  match
    (o <-r index0 args_array ;;
     let handler := getattr w o "_usage_statistics_handler" VNone in
     Ok (match handler with
         | VNone => handler
         | VHandler _ => handler
         | _ => VNone
         end))
  with
  | Ok handler => handler
  | Raise _ => VNone
  end.

(** A Python callable taking positional and keyword arguments. *)
Definition pyfunc : Type := list value -> dict -> M world value.

(** The local variables of [usage_statistics_wrapped_method] together with
    the world.  [message] holds the very dictionary [event_payload], so it is
    rebuilt from the locals whenever it is read. *)
Record frame : Type :=
  { event_payload : dict;
    success : option bool;
    handler : value;
    globals : world }.

Definition message_of (event_name : string) (fr : frame) : value :=
  VDict ([ ("event_payload", VDict (event_payload fr));
           ("event", VStr event_name) ]
         ++ match success fr with
            | Some b => [("success", VBool b)]
            | None => []
            end).

Definition in_world {A : Type} (c : M world A) : M frame A :=
  fun fr =>
    let '(r, w) := c (globals fr) in
    (r, {| event_payload := event_payload fr; success := success fr;
           handler := handler fr; globals := w |}).

Definition set_success (b : bool) : M frame unit :=
  fun fr =>
    (Ok tt, {| event_payload := event_payload fr; success := Some b;
               handler := handler fr; globals := globals fr |}).

Definition assign_handler (h : value) : M frame unit :=
  fun fr =>
    (Ok tt, {| event_payload := event_payload fr; success := success fr;
               handler := h; globals := globals fr |}).

Section Interceptor.

Variable L : externals.

(** [handler.emit] called with the positional arguments [args] on a [UsageStatisticsHandler]: [emit] takes the
    message and nothing else. *)
Definition handler_emit (hid : nat) (args : list value) : M world unit :=
  match args with
  | [message] =>
      fun w =>
        let '(r, (_, h)) := emit L (utcnow w) (message, handlers w hid) in
        (r, set_handler hid h w)
  | _ => raise (Exn TypeError "emit() takes 2 positional arguments")
  end.

(** [handler.emit] called with the positional arguments [args] on whatever object [handler] is. *)
Definition call_emit (handler : value) (args : list value) : M world unit :=
  match handler with
  | VHandler hid => handler_emit hid args
  | VObj r =>
      fun w =>
        match dict_get "emit" (attrs w r) with
        | Some _ => (Raise (Exn TypeError "object is not callable"), w)
        | None => (Raise (Exn AttributeError "emit"), w)
        end
  | _ => raise (Exn AttributeError "emit")
  end.

(** [nested_update(event_payload, u)] *)
Definition update_payload (u : value) : M frame unit :=
  fun fr =>
    let '(r, d) := nested_update L (event_payload fr) u in
    (r, {| event_payload := d; success := success fr;
           handler := handler fr; globals := globals fr |}).

(** [if fn is not None: nested_update(event_payload, fn(...))], where
    [call] is the call of the payload function when there is one. *)
Definition contribute (call : option (M world value)) : M frame unit :=
  match call with
  | Some c => u <- in_world c ;; update_payload u
  | None => ret tt
  end.

(** [handler.emit(message)] under the guard [test] on [handler]. *)
Definition emit_message (test : value -> bool) (event_name : string)
  : M frame unit :=
  fun fr =>
    if test (handler fr)
    then in_world (call_emit (handler fr) [message_of event_name fr]) fr
    else (Ok tt, fr).

Definition wrapped_try (func : pyfunc) (event_name : string)
    (args_payload_fn : option pyfunc)
    (result_payload_fn : option (value -> M world value))
    (args : list value) (kwargs : dict) : M frame value :=
  _ <- contribute (option_map (fun f => f args kwargs) args_payload_fn) ;;
  result <- in_world (func args kwargs) ;;
  h <- (fun fr => (Ok (get_usage_statistics_handler args (globals fr)), fr)) ;;
  _ <- assign_handler h ;;
  _ <- contribute (option_map (fun f => f result) result_payload_fn) ;;
  _ <- set_success true ;;
  _ <- emit_message (fun h => negb (is_none h)) event_name ;;
  ret result.

Definition wrapped_except (event_name : string) (e : exn) : M frame value :=
  _ <- set_success false ;;
  _ <- emit_message truthy event_name ;;
  raise e.

Definition usage_statistics_wrapped_method (func : pyfunc)
    (event_name : string) (args_payload_fn : option pyfunc)
    (result_payload_fn : option (value -> M world value))
    (args : list value) (kwargs : dict) : M world value :=
  fun w =>
    let fr := {| event_payload := []; success := None; handler := VNone;
                 globals := w |} in
    let '(r, fr') :=
      try_except
        (wrapped_try func event_name args_payload_fn result_payload_fn
           args kwargs)
        (wrapped_except event_name) fr in
    (r, globals fr').

(** The decorator applied to a callable [func] whose [__name__] is
    [func_name]. *)
Definition usage_statistics_enabled_method (func : pyfunc) (func_name : string)
    (event_name : option string) (args_payload_fn : option pyfunc)
    (result_payload_fn : option (value -> M world value)) : pyfunc :=
  usage_statistics_wrapped_method func
    (match event_name with
     | Some n => n
     | None => func_name
     end)
    args_payload_fn result_payload_fn.

Definition send_usage_message
    (data_context event event_payload success payload_schema : value)
  : M world value :=
  try_except
    (fun w =>
       let handler := getattr w data_context "_usage_statistics_handler" VNone in
       let message :=
         VDict [ ("event", event);
                 ("event_payload",
                  if truthy event_payload then event_payload else VDict []);
                 ("success", success) ] in
       if negb (is_none handler)
       then (_ <- call_emit handler [message; payload_schema] ;; ret VNone) w
       else (Ok VNone, w))
    (fun _ => ret VNone).

End Interceptor.

(** *** Signals *)






(** *** The registry of anonymizers *)

(** Whether a value can be a dictionary key. *)
Definition hashable (v : value) : bool :=
  match v with
  | VList _ => false
  | VDict _ => false
  | _ => true
  end.

(** [a == b] on hashable values; [True] and [False] are the integers 1 and
    0, objects are compared by identity. *)
Definition key_eqb (a b : value) : bool :=
  match a, b with
  | VNone, VNone => true
  | VBool x, VBool y => Bool.eqb x y
  | VBool x, VInt y => Z.eqb (if x then 1 else 0) y
  | VInt x, VBool y => Z.eqb x (if y then 1 else 0)
  | VInt x, VInt y => Z.eqb x y
  | VStr s, VStr t => String.eqb s t
  | VObj r, VObj r' => Nat.eqb r r'
  | VHandler h, VHandler h' => Nat.eqb h h'
  | _, _ => false
  end.

(** The module state of [usage_statistics]: the dictionary [_anonymizers],
    in insertion order, and the operating system's randomness as
    [secrets.token_hex(8)] reads it, [drawn] tokens having been read. *)
Record process : Type :=
  { _anonymizers : list (value * Anonymizer);
    token_hex : nat -> string;
    drawn : nat }.

Fixpoint registry_find (k : value) (reg : list (value * Anonymizer))
  : option Anonymizer :=
  match reg with
  | [] => None
  | (k', a) :: rest => if key_eqb k k' then Some a else registry_find k rest
  end.

(** [_anonymizers.get(k, None)] *)
Definition registry_get (k : value) : M process (option Anonymizer) :=
  fun p =>
    if hashable k then (Ok (registry_find k (_anonymizers p)), p)
    else (Raise (Exn TypeError "unhashable type"), p).

(** [_anonymizers[k] = a] for a hashable key. *)
Fixpoint registry_store (k : value) (a : Anonymizer)
    (reg : list (value * Anonymizer)) : list (value * Anonymizer) :=
  match reg with
  | [] => [(k, a)]
  | (k', a') :: rest =>
      if key_eqb k k' then (k', a) :: rest
      else (k', a') :: registry_store k a rest
  end.

Definition registry_set (k : value) (a : Anonymizer) : M process unit :=
  fun p =>
    (Ok tt, {| _anonymizers := registry_store k a (_anonymizers p);
               token_hex := token_hex p; drawn := drawn p |}).

(** [Anonymizer(salt)]: a token is read only when the salt is no string. *)
Definition new_Anonymizer (salt : value) : M process Anonymizer :=
  fun p =>
    match salt with
    | VStr _ => (Ok (Anonymizer_init salt ""), p)
    | _ =>
        (Ok (Anonymizer_init salt (token_hex p (drawn p))),
         {| _anonymizers := _anonymizers p; token_hex := token_hex p;
            drawn := Datatypes.S (drawn p) |})
    end.

(** [o.name], an [AttributeError] when the object has no such attribute. *)
Definition attribute (w : world) (o : value) (name : string) : result value :=
  match o with
  | VObj r =>
      match dict_get name (attrs w r) with
      | Some v => Ok v
      | None => Raise (Exn AttributeError name)
      end
  | _ => Raise (Exn AttributeError name)
  end.

(** The number of code points of a string kept as its UTF-8 bytes: the
    bytes that are not continuation bytes. *)
Definition code_points (s : string) : nat :=
  List.length
    (filter (fun b => negb (N.eqb (N.shiftr b 6) 2)) (encode_utf8 s)).

Fixpoint distinct_keys (d : dict) : list string :=
  match d with
  | [] => []
  | (k, _) :: rest =>
      if existsb (String.eqb k) (distinct_keys rest) then distinct_keys rest
      else k :: distinct_keys rest
  end.

(** [len(v)] *)
Definition len (v : value) : result Z :=
  match v with
  | VStr s => Ok (Z.of_nat (code_points s))
  | VList l => Ok (Z.of_nat (List.length l))
  | VDict d => Ok (Z.of_nat (List.length (distinct_keys d)))
  | _ => Raise (Exn TypeError "object has no len()")
  end.

(** [try: c except TypeError: pass] *)
Definition except_TypeError {S : Type} (c : M S unit) : M S unit :=
  try_except c
    (fun e =>
       if exn_class_eqb (exn_type e) TypeError then ret tt else raise e).

(** The world is read for the attribute of [data_context]; [run_id] and the
    keyword arguments are not used by the body. *)
Definition run_validation_operator_usage_statistics (w : world)
    (data_context validation_operator_name assets_to_validate : value)
  : M process value :=
  let data_context_id :=
    match attribute w data_context "data_context_id" with
    | Ok v => v
    | Raise _ => VNone
    end in
  found <- registry_get data_context_id ;;
  anonymizer <- match found with
                | Some a => ret a
                | None =>
                    a <- new_Anonymizer data_context_id ;;
                    _ <- registry_set data_context_id a ;;
                    ret a
                end ;;
  fun p =>
    let '(_, payload) :=
      (_ <- except_TypeError
              (fun payload =>
                 match anonymize anonymizer validation_operator_name with
                 | Ok h =>
                     (Ok tt,
                      dict_set "anonymized_operator_name" (VStr h) payload)
                 | Raise e => (Raise e, payload)
                 end) ;;
       except_TypeError
         (fun payload =>
            match len assets_to_validate with
            | Ok n => (Ok tt, dict_set "n_assets" (VInt n) payload)
            | Raise e => (Raise e, payload)
            end)) ([] : dict) in
    (Ok (VDict payload), p).

(** ** A concrete environment *)

(** The part of [jsonschema.validate] that reads the keywords [type] and
    [required]: the schema is checked first, and a malformed one is a
    [SchemaError]; then the instance is checked, and a failure is a
    [ValidationError]. *)
Module Jsonschema.

Definition type_names : list string :=
  ["array"; "boolean"; "integer"; "null"; "number"; "object"; "string"].

Definition known_type (v : value) : bool :=
  match v with
  | VStr s => existsb (String.eqb s) type_names
  | _ => false
  end.

Definition is_str (v : value) : bool :=
  match v with
  | VStr _ => true
  | _ => false
  end.

Definition check_schema (schema : dict) : result unit :=
  _ <-r match dict_get "type" schema with
        | Some (VList ts) =>
            if forallb known_type ts then Ok tt
            else Raise (Exn SchemaError "type")
        | Some t =>
            if known_type t then Ok tt else Raise (Exn SchemaError "type")
        | None => Ok tt
        end ;;
  match dict_get "required" schema with
  | Some (VList rs) =>
      if forallb is_str rs then Ok tt else Raise (Exn SchemaError "required")
  | Some _ => Raise (Exn SchemaError "required")
  | None => Ok tt
  end.

Definition has_type (instance : value) (t : value) : bool :=
  match t, instance with
  | VStr "array", VList _ => true
  | VStr "boolean", VBool _ => true
  | VStr "integer", VInt _ => true
  | VStr "null", VNone => true
  | VStr "number", VInt _ => true
  | VStr "object", VDict _ => true
  | VStr "string", VStr _ => true
  | _, _ => false
  end.

Definition has_key (instance : value) (k : value) : bool :=
  match instance, k with
  | VDict d, VStr s =>
      match dict_get s d with
      | Some _ => true
      | None => false
      end
  | _, _ => true
  end.

Definition check_instance (instance : value) (schema : dict) : result unit :=
  _ <-r match dict_get "type" schema with
        | Some (VList ts) =>
            if existsb (has_type instance) ts then Ok tt
            else Raise (Exn ValidationError "type")
        | Some t =>
            if has_type instance t then Ok tt
            else Raise (Exn ValidationError "type")
        | None => Ok tt
        end ;;
  match dict_get "required" schema with
  | Some (VList rs) =>
      if forallb (has_key instance) rs then Ok tt
      else Raise (Exn ValidationError "required")
  | _ => Ok tt
  end.

Definition validate (instance schema : value) : result unit :=
  match schema with
  | VDict s => _ <-r check_schema s ;; check_instance instance s
  | VBool true => Ok tt
  | VBool false => Raise (Exn ValidationError "False schema")
  | VStr _ => Raise (Exn SchemaError "schema is not of type object, boolean")
  | VList _ => Raise (Exn SchemaError "schema is not of type object, boolean")
  | _ => Raise (Exn TypeError "argument of this type is not iterable")
  end.

End Jsonschema.

(** Modelled from the spec: [great_expectations.core.nested_update], which
    the interceptor uses to merge a payload contribution into
    [event_payload]; a mapping value is merged into the mapping already
    under its key, any other value replaces what is there, and a
    contribution that is no mapping has no [items] to iterate. *)
Fixpoint nested_merge (u : value) (d : dict) : dict :=
  match u with
  | VDict items =>
      (fix go (l : list (string * value)) (d : dict) : dict :=
         match l with
         | [] => d
         | (k, v) :: rest =>
             go rest
               (match v with
                | VDict _ =>
                    dict_set k
                      (VDict (nested_merge v
                                (match dict_get k d with
                                 | Some (VDict old) => old
                                 | _ => []
                                 end)))
                      d
                | _ => dict_set k v d
                end)
         end) items d
  | _ => d
  end.

Definition nested_update_model (d : dict) (u : value) : result unit * dict :=
  match u with
  | VDict _ => (Ok tt, nested_merge u d)
  | _ => (Raise (Exn AttributeError "items"), d)
  end.

(** Modelled from the spec: [usage_statistics_record_schema] of
    [great_expectations.core.logging.schemas], as far as the wire shape of a
    message goes: an object that carries the event, its payload and the
    five fields of the envelope. *)
Definition record_schema : value :=
  VDict [ ("type", VStr "object");
          ("required",
           VList [ VStr "event"; VStr "event_payload";
                   VStr "version"; VStr "event_time";
                   VStr "data_context_id";
                   VStr "data_context_instance_id"; VStr "ge_version" ]) ].

(** Modelled from the spec: the datasource, store and validation operator
    anonymizers, each of which produces a payload dictionary from a domain
    object; here from the [class_name] of its configuration. *)
Definition describe (name : string) (obj : value) : result value :=
  match obj with
  | VDict d =>
      match dict_get "class_name" d with
      | Some c => Ok (VDict [("anonymized_name", VStr name); ("parent_class", c)])
      | None => Raise (Exn KeyError "class_name")
      end
  | _ => Raise (Exn TypeError "object is not subscriptable")
  end.

(** An environment to run the definitions in, over a collector [post]. *)
Definition env (post : string -> value -> result N) : externals :=
  {| ge_version := VStr "0.9.7";
     usage_statistics_record_schema := record_schema;
     jsonschema_validate := Jsonschema.validate;
     nested_update := nested_update_model;
     platform_system := "Linux";
     platform_release := "5.4.0";
     version_info := "sys.version_info(major=3, minor=7, micro=6)";
     anonymize_datasource_info := fun _ obj => describe "datasource" obj;
     anonymize_store_info := fun _ name obj => describe name obj;
     anonymize_validation_operator_info := fun _ name obj => describe name obj;
     session_post := post |}.

(** A collector that answers 201, and one that refuses the connection. *)
Definition collector_up : string -> value -> result N := fun _ _ => Ok 201%N.

Definition collector_down : string -> value -> result N :=
  fun _ _ => Raise (Exn ConnectionError "connection refused").

(** ** Vocabulary of the properties *)





(** The instant [t] to the millisecond, in UTC. *)
Definition iso_millis (t : datetime) : string :=
  string_of_list_ascii
    (digits 4 (year t) ++ "-"%char :: digits 2 (month t) ++ "-"%char
     :: digits 2 (day t) ++ "T"%char :: digits 2 (hour t) ++ ":"%char
     :: digits 2 (minute t) ++ ":"%char :: digits 2 (second t) ++ "."%char
     :: digits 3 (microsecond t / 1000) ++ ["Z"%char]).

(** The fields [build_envelope] stamps on a message. *)
Definition envelope_fields : list string :=
  [ "version"; "event_time"; "data_context_id"; "data_context_instance_id";
    "ge_version" ].

(** What happens to a handler between its construction and its shutdown:
    some thread calls [emit], or the worker thread takes a turn. *)
Inductive action : Type :=
| Produce (message : value) (now : datetime)
| Consume.

Definition act (L : externals) (h : UsageStatisticsHandler) (a : action)
  : UsageStatisticsHandler :=
  match a with
  | Produce message now => snd (snd (emit L now (message, h)))
  | Consume =>
      match worker_turn L h with
      | Some h' => h'
      | None => h
      end
  end.

Definition run (L : externals) (h : UsageStatisticsHandler)
    (schedule : list action) : UsageStatisticsHandler :=
  fold_left (act L) schedule h.

Definition is_produce (a : action) : bool :=
  match a with
  | Produce _ _ => true
  | Consume => false
  end.

Fixpoint messages (q : list qitem) : list value :=
  match q with
  | [] => []
  | Msg m :: rest => m :: messages rest
  | STOP_SIGNAL :: rest => messages rest
  end.

(** The messages the producers of a schedule put on the queue, in queue
    order: what the queue holds when the worker takes no turn. *)
Definition enqueued (L : externals) (h : UsageStatisticsHandler)
    (schedule : list action) : list value :=
  messages (_message_queue (run L h (filter is_produce schedule))).

(** The anonymized name of a class. *)
Definition class_hash (self : Anonymizer) (object_class : pyclass) : string :=
  Md5.hexdigest (encode_utf8 (_salt self ++ __name__ object_class)).

(** The dictionary after the five assignments of [build_envelope]. *)
Definition stamped (self : UsageStatisticsHandler) (now : datetime) (d : dict)
  : dict :=
  dict_set "ge_version" (_ge_version self)
    (dict_set "data_context_instance_id" (_data_context_instance_id self)
       (dict_set "data_context_id" (_data_context_id self)
          (dict_set "event_time" (VStr (iso_millis now))
             (dict_set "version" (VStr "1.0.0") d)))).

(** Case analysis on the outcome of every call in the goal, innermost
    scrutinee first. *)
Ltac destruct_inner x :=
  lazymatch x with
  | context [match ?y with Ok _ => _ | Raise _ => _ end] => destruct_inner y
  | context [if ?c then _ else _] => destruct_inner c
  | negb ?v => destruct v; cbn [negb]
  | _ => destruct x eqn:?
  end.

Ltac split_outcomes :=
  repeat (cbn [fst snd];
          match goal with
          | |- context [if ?c then _ else _] => destruct_inner c
          | |- context [match ?x with Ok _ => _ | Raise _ => _ end] =>
              destruct_inner x
          end).

(** What [emit] appends to the queue: the enveloped message when every step
    returns and the message validates, nothing otherwise. *)
Definition accepted (L : externals) (now : datetime) (message : value)
    (self : UsageStatisticsHandler) : list value :=
  match
    (ev <-r subscript message "event" ;;
     m <-r (if eq_str ev "data_context.__init__"
            then p <-r build_init_payload L self ;;
                 setitem message "event_payload" p
            else Ok message) ;;
     m <-r build_envelope self m now ;;
     valid <-r validate_message L m (usage_statistics_record_schema L) ;;
     Ok (if valid then [m] else []))
  with
  | Ok l => l
  | Raise _ => []
  end.

(** Two handler states of one handler: they agree on what the constructor
    fixed. *)
Definition same_config (h g : UsageStatisticsHandler) : Prop :=
  _url h = _url g
  /\ _data_context_id h = _data_context_id g
  /\ _data_context_instance_id h = _data_context_instance_id g
  /\ _data_context h = _data_context g
  /\ _ge_version h = _ge_version g.

(** The frame a call of the wrapped method starts in. *)
Definition entry (w : world) : frame :=
  {| event_payload := []; success := None; handler := VNone; globals := w |}.


(** The [data_context_id] read off a data context, [None] when it has no
    such attribute. *)
Definition context_id (w : world) (data_context : value) : value :=
  match attribute w data_context "data_context_id" with
  | Ok v => v
  | Raise _ => VNone
  end.

(** The payload [v] is the one anonymizer [a] gives for an operator name
    and a collection of assets: the name hashed when it is a string, the
    number of assets when they have a length, and each field missing
    otherwise. *)
Definition payload_from (a : Anonymizer) (name assets : value) (v : value)
  : Prop :=
  subscript v "anonymized_operator_name"
  = match name with
    | VStr s => Ok (VStr (Md5.hexdigest (encode_utf8 (_salt a ++ s))))
    | _ => Raise (Exn KeyError "anonymized_operator_name")
    end
  /\ subscript v "n_assets"
     = match len assets with
       | Ok n => Ok (VInt n)
       | Raise _ => Raise (Exn KeyError "n_assets")
       end.

(** The ranges [datetime] keeps the fields of an instant in. *)
Definition valid_datetime (t : datetime) : Prop :=
  (1 <= year t <= 9999 /\ 1 <= month t <= 12 /\ 1 <= day t <= 31
   /\ hour t <= 23 /\ minute t <= 59 /\ second t <= 59
   /\ microsecond t <= 999999)%N.

(** ** Sample data *)

Definition class_Datasource : pyclass :=
  {| cls_id := 1; __name__ := "Datasource"; cls_ancestors := [0] |}.

Definition class_PandasDatasource : pyclass :=
  {| cls_id := 2; __name__ := "PandasDatasource"; cls_ancestors := [1; 0] |}.

Definition class_MyDatasource : pyclass :=
  {| cls_id := 3; __name__ := "MyDatasource"; cls_ancestors := [2; 1; 0] |}.

Definition class_unnamed : pyclass :=
  {| cls_id := 4; __name__ := ""; cls_ancestors := [0] |}.

Definition salted : Anonymizer := {| _salt := "salt" |}.

Definition sample_context : data_context :=
  {| instance_id := VStr "instance-1";
     datasources := [("files", VDict [("class_name", VStr "PandasDatasource")])];
     stores :=
       [ ("expectations_store", VDict [("class_name", VStr "ExpectationsStore")]);
         ("validations_store", VDict [("class_name", VStr "ValidationsStore")]) ];
     validation_operators := [] |}.

Definition sample_handler : UsageStatisticsHandler :=
  UsageStatisticsHandler_init (env collector_up) sample_context
    (VStr "context-1") "http://collector.local/ingest".

Definition sample_time : datetime :=
  {| year := 2020; month := 3; day := 9; hour := 14; minute := 5;
     second := 59; microsecond := 1999 |}.

Definition sample_message (event : string) : value :=
  VDict [ ("event", VStr event); ("event_payload", VDict []);
          ("success", VBool true) ].

(** Three producers, the worker taking a turn after the first. *)
Definition sample_schedule : list action :=
  [ Produce (sample_message "data_context.open_data_docs") sample_time;
    Consume;
    Produce (sample_message "data_context.build_data_docs") sample_time;
    Produce (VDict [("event", VStr "cli.suite.list")]) sample_time;
    Produce (sample_message "data_context.save_expectation_suite") sample_time ].

Definition sample_world : world :=
  {| utcnow := sample_time;
     attrs := fun _ => [];
     handlers := fun _ => sample_handler |}.

(** The sample world once object 0 holds handler 7. *)
Definition instrumented_world : world :=
  setattr 0 "_usage_statistics_handler" (VHandler 7) sample_world.

(** An operation in the manner of a constructor: it installs the handler
    on [self] and returns 42. *)
Definition open_context : pyfunc :=
  fun args _ w =>
    match args with
    | VObj r :: _ =>
        (Ok (VInt 42), setattr r "_usage_statistics_handler" (VHandler 7) w)
    | _ => (Raise (Exn TypeError "missing 1 required positional argument"), w)
    end.

Definition report_result : value -> M world value :=
  fun result => ret (VDict [("n_assets", result)]).

Definition measure_result : value -> M world value :=
  fun _ => raise (Exn TypeError "object of type 'int' has no len()").

Definition failing_operation : pyfunc :=
  fun _ _ => raise (Exn RuntimeError "boom").

(** A handler for a context one of whose datasources has no class name to
    report. *)
Definition broken_handler : UsageStatisticsHandler :=
  UsageStatisticsHandler_init (env collector_up)
    {| instance_id := VStr "instance-1";
       datasources := [("files", VDict [("module_name", VStr "datasources")])];
       stores := [];
       validation_operators := [] |}
    (VStr "context-1") "http://collector.local/ingest".

(** A collector that answers 201 except for the event named [lost], on
    which the connection is reset. *)
Definition collector_flaky : string -> value -> result N :=
  fun _ m =>
    match subscript m "event" with
    | Ok ev =>
        if eq_str ev "lost"
        then Raise (Exn ConnectionError "connection reset")
        else Ok 201%N
    | Raise _ => Ok 201%N
    end.

(** A process whose registry is empty, and a world in which object 0 is a
    data context with an id and object 1 one without. *)
Definition fresh_process : process :=
  {| _anonymizers := [];
     token_hex := fun n => if Nat.eqb n 0 then "00112233445566ff"
                           else "8899aabbccddeeff";
     drawn := 0 |}.

Definition context_world : world :=
  setattr 0 "data_context_id" (VStr "context-1") sample_world.

(** ** Properties of the anonymizer *)
Example md5_empty :
  Md5.hexdigest (encode_utf8 "") = "d41d8cd98f00b204e9800998ecf8427e"%string.
Proof. vm_compute. reflexivity. Qed.

Example md5_abc :
  Md5.hexdigest (encode_utf8 "abc") = "900150983cd24fb0d6963f7d28e17f72"%string.
Proof. vm_compute. reflexivity. Qed.

Example md5_two_blocks :
  Md5.hexdigest (encode_utf8
    "xxxxxxxxxxxxxxxxxxxxxxxxxxxxxxxxxxxxxxxxxxxxxxxxxxxxxxxxxxxxxxxxxxxxxx")
  = "7d56c0f83fd1e320d60ea2f13dfdeedd"%string.
Proof. vm_compute. reflexivity. Qed.

Lemma dict_get_set_same (k : string) (v : value) (d : dict) :
  dict_get k (dict_set k v d) = Some v.
Proof.
  induction d as [|[k' v'] d IH]; simpl.
  - now rewrite String.eqb_refl.
  - destruct (String.eqb k k') eqn:E; simpl; rewrite E; auto.
Qed.

Lemma dict_get_set_other (k k' : string) (v : value) (d : dict) :
  k' <> k -> dict_get k' (dict_set k v d) = dict_get k' d.
Proof.
  intros Hne. induction d as [|[k0 v0] d IH]; simpl.
  - destruct (String.eqb k' k) eqn:E; auto.
    apply String.eqb_eq in E. contradiction.
  - destruct (String.eqb k k0) eqn:E; simpl.
    + apply String.eqb_eq in E. subst k0.
      destruct (String.eqb k' k) eqn:E'; auto.
      apply String.eqb_eq in E'. contradiction.
    + now rewrite IH.
Qed.








Lemma anonymize_object_info_loop_find (self : Anonymizer)
    (object_class : pyclass) (info : dict) (ge_classes : list pyclass) :
  anonymize_object_info_loop self object_class info ge_classes =
  match find (issubclass object_class) ge_classes with
  | Some g =>
      let d := dict_set "parent_class" (VStr (__name__ g)) info in
      Ok (if class_eq object_class g then d
          else dict_set "anonymized_class"
                 (VStr (class_hash self object_class)) d)
  | None => Ok info
  end.
Proof.
  induction ge_classes as [|g rest IH]; simpl; [reflexivity|].
  destruct (issubclass object_class g); [|exact IH].
  destruct (class_eq object_class g); reflexivity.
Qed.

(** C5, as the code has it.  When [info] arrives with no truthy
    [parent_class] and no [anonymized_class], and the first recognized class
    that the object's class is a subclass of has a non-empty name, then
    [parent_class] is the name of that first class, [anonymized_class] is
    absent when the object's class is that very class and is the anonymized
    class name otherwise; when no recognized class matches, [parent_class] is
    [__not_recognized__] and [anonymized_class] is the anonymized class name.
    Every other key of [info] is left as it was. *)
Theorem anonymize_object_info_classifies (self : Anonymizer)
    (object_class : pyclass) (info : dict) (ge_classes : list pyclass) :
  truthy_opt (dict_get "parent_class" info) = false ->
  dict_get "anonymized_class" info = None ->
  (forall g, find (issubclass object_class) ge_classes = Some g ->
             __name__ g <> "") ->
  exists d : dict,
    anonymize_object_info self object_class info ge_classes = Ok d
    /\ anonymize self (VStr (__name__ object_class))
       = Ok (class_hash self object_class)
    /\ match find (issubclass object_class) ge_classes with
       | Some g =>
           dict_get "parent_class" d = Some (VStr (__name__ g))
           /\ dict_get "anonymized_class" d =
              (if class_eq object_class g then None
               else Some (VStr (class_hash self object_class)))
       | None =>
           dict_get "parent_class" d = Some (VStr "__not_recognized__")
           /\ dict_get "anonymized_class" d =
              Some (VStr (class_hash self object_class))
       end
    /\ (forall k, k <> "parent_class" -> k <> "anonymized_class" ->
                  dict_get k d = dict_get k info).
Proof.
  intros Hparent Hanon Hname.
  unfold anonymize_object_info.
  rewrite anonymize_object_info_loop_find.
  destruct (find (issubclass object_class) ge_classes) as [g|] eqn:Hfind.
  - specialize (Hname g eq_refl).
    assert (Htruthy : truthy (VStr (__name__ g)) = true).
    { simpl. destruct (String.eqb (__name__ g) "") eqn:E; [|reflexivity].
      apply String.eqb_eq in E. contradiction. }
    cbv zeta. unfold bind_r.
    destruct (class_eq object_class g).
    + rewrite dict_get_set_same. cbn [truthy_opt]. rewrite Htruthy. cbn [negb].
      eexists. split; [reflexivity|]. split; [reflexivity|].
      split; [split|].
      * apply dict_get_set_same.
      * rewrite dict_get_set_other by discriminate. exact Hanon.
      * intros k Hk _. now rewrite dict_get_set_other.
    + rewrite dict_get_set_other by discriminate.
      rewrite dict_get_set_same. cbn [truthy_opt]. rewrite Htruthy. cbn [negb].
      eexists. split; [reflexivity|]. split; [reflexivity|].
      split; [split|].
      * rewrite dict_get_set_other by discriminate. apply dict_get_set_same.
      * apply dict_get_set_same.
      * intros k Hk Hk'. now rewrite !dict_get_set_other.
  - unfold bind_r. rewrite Hparent. cbn [negb anonymize].
    eexists. split; [reflexivity|]. split; [reflexivity|].
    split; [split|].
    + rewrite dict_get_set_other by discriminate. apply dict_get_set_same.
    + apply dict_get_set_same.
    + intros k Hk Hk'. now rewrite !dict_get_set_other.
Qed.

(** A subclass of both recognized classes is filed under the first one. *)
Lemma anonymize_object_info_classifies_witness :
  exists d : dict,
    anonymize_object_info salted class_MyDatasource
      [("anonymized_name", VStr "abc")]
      [class_PandasDatasource; class_Datasource] = Ok d
    /\ dict_get "parent_class" d = Some (VStr "PandasDatasource")
    /\ dict_get "anonymized_class" d
       = Some (VStr (class_hash salted class_MyDatasource)).
Proof.
  destruct (anonymize_object_info_classifies salted class_MyDatasource
              [("anonymized_name", VStr "abc")]
              [class_PandasDatasource; class_Datasource])
    as [d [Hd [_ [Hclass _]]]].
  - reflexivity.
  - reflexivity.
  - simpl. intros g Hg. injection Hg as <-. discriminate.
  - exists d. split; [exact Hd|]. exact Hclass.
Defined.

(** C5 as stated fails on an [info] that already carries the two keys, and
    on a recognized class whose name is the empty string: the first leaves
    the caller's [parent_class] in place although nothing matched, and keeps
    an [anonymized_class] although the class is the recognized one itself;
    the second is reported as not recognized although it matched. *)
Lemma anonymize_object_info_counterexample :
  anonymize_object_info salted class_MyDatasource
    [("parent_class", VStr "Store")] []
  = Ok [("parent_class", VStr "Store")]
  /\ anonymize_object_info salted class_Datasource
       [("anonymized_class", VStr "abc")] [class_Datasource]
     = Ok [("anonymized_class", VStr "abc"); ("parent_class", VStr "Datasource")]
  /\ anonymize_object_info salted class_unnamed [] [class_unnamed]
     = Ok [("parent_class", VStr "__not_recognized__");
           ("anonymized_class", VStr (class_hash salted class_unnamed))].
Proof.
  vm_compute. repeat split.
Qed.

(** ** Properties of the envelope *)


Lemma event_time_iso_millis (now : datetime) :
  string_of_list_ascii (drop_last3 (strftime now) ++ ["Z"%char])
  = iso_millis now.
Proof.
  unfold iso_millis, drop_last3, strftime. f_equal.
  cbn [digits app List.length Nat.sub firstn].
  rewrite !N.Div0.div_div.
  reflexivity.
Qed.


Lemma build_envelope_stamped (self : UsageStatisticsHandler) (d : dict)
    (now : datetime) :
  build_envelope self (VDict d) now = Ok (VDict (stamped self now d)).
Proof.
  unfold build_envelope, stamped. cbn [setitem bind_r].
  now rewrite event_time_iso_millis.
Qed.

Lemma stamped_fields (self : UsageStatisticsHandler) (now : datetime)
    (d : dict) :
  dict_get "version" (stamped self now d) = Some (VStr "1.0.0")
  /\ dict_get "event_time" (stamped self now d) = Some (VStr (iso_millis now))
  /\ dict_get "data_context_id" (stamped self now d)
     = Some (_data_context_id self)
  /\ dict_get "data_context_instance_id" (stamped self now d)
     = Some (_data_context_instance_id self)
  /\ dict_get "ge_version" (stamped self now d) = Some (_ge_version self).
Proof.
  unfold stamped.
  repeat split;
    repeat (rewrite dict_get_set_other by discriminate);
    apply dict_get_set_same.
Qed.

Lemma stamped_frame (self : UsageStatisticsHandler) (now : datetime)
    (d : dict) (k : string) :
  ~ In k envelope_fields ->
  dict_get k (stamped self now d) = dict_get k d.
Proof.
  intros Hk. unfold stamped.
  rewrite !dict_get_set_other; auto; intros ->; apply Hk; simpl; tauto.
Qed.



(** Two readings one millisecond apart: the second envelope replaces the
    time stamp of the first. *)
Example build_envelope_not_idempotent :
  let self :=
    {| _url := "http://collector.local/ingest";
       _data_context_id := VStr "ctx"; _data_context_instance_id := VStr "inst";
       _data_context := {| instance_id := VStr "inst"; datasources := [];
                           stores := []; validation_operators := [] |};
       _ge_version := VStr "0.9.7"; _message_queue := []; _worker := Running;
       posts := [] |} in
  let t1 := {| year := 2020; month := 3; day := 9; hour := 14; minute := 5;
               second := 59; microsecond := 1999 |} in
  let t2 := {| year := 2020; month := 3; day := 9; hour := 14; minute := 5;
               second := 59; microsecond := 2000 |} in
  forall m1, build_envelope self (VDict [("event", VStr "e")]) t1 = Ok m1 ->
  subscript m1 "event_time" = Ok (VStr "2020-03-09T14:05:59.001Z")
  /\ exists m2, build_envelope self m1 t2 = Ok m2
     /\ subscript m2 "event_time" = Ok (VStr "2020-03-09T14:05:59.002Z").
Proof.
  intros self t1 t2 m1 H. vm_compute in H. injection H as <-.
  split; [reflexivity|]. eexists. split; vm_compute; reflexivity.
Qed.

(** ** Properties of validation and of [emit] *)

Lemma jsonschema_well_formed (instance : value) (s : dict) (e : exn) :
  Jsonschema.check_schema s = Ok tt ->
  Jsonschema.validate instance (VDict s) = Raise e ->
  exn_type e = ValidationError.
Proof.
  intros Hs. unfold Jsonschema.validate. rewrite Hs. cbn [bind_r].
  unfold Jsonschema.check_instance, bind_r.
  destruct (dict_get "type" s) as [[| | | |ts| | |]|];
    repeat match goal with
           | |- context [if ?c then _ else _] => destruct c
           | |- context [match dict_get ?k ?d with _ => _ end] =>
               destruct (dict_get k d) as [[| | | | | | |]|]
           end;
    intros H; try discriminate H; injection H as <-; reflexivity.
Qed.

(** C7, as the code has it.  Whenever the schema validator raises nothing
    but [ValidationError] on the message and schema at hand, as it does on
    every well-formed schema, [validate_message] returns a boolean, which is
    true exactly when the message validates. *)
Theorem validate_message_decides (L : externals) (message schema : value) :
  (forall e, jsonschema_validate L message schema = Raise e ->
             exn_type e = ValidationError) ->
  exists b : bool,
    validate_message L message schema = Ok b
    /\ (b = true <-> jsonschema_validate L message schema = Ok tt).
Proof.
  intros Honly. unfold validate_message.
  destruct (jsonschema_validate L message schema) as [[]|e] eqn:E.
  - exists true. split; [reflexivity|]. tauto.
  - rewrite (Honly e eq_refl). exists false. split; [reflexivity|].
    split; discriminate.
Qed.

(** A message that has not been enveloped, against the record schema: it
    does not validate, and the answer is false. *)
Lemma validate_message_decides_witness :
  exists b : bool,
    validate_message (env collector_up)
      (VDict [("event", VStr "e"); ("event_payload", VDict [])]) record_schema
    = Ok b
    /\ b = false
    /\ (b = true
        <-> Jsonschema.validate
              (VDict [("event", VStr "e"); ("event_payload", VDict [])])
              record_schema = Ok tt).
Proof.
  destruct (validate_message_decides (env collector_up)
              (VDict [("event", VStr "e"); ("event_payload", VDict [])])
              record_schema) as [b [Hb Hiff]].
  - intros e H. vm_compute in H. injection H as <-. reflexivity.
  - exists b. split; [exact Hb|]. split; [|exact Hiff].
    vm_compute in Hb. now injection Hb as <-.
Defined.

(** C7 as stated fails on a schema document that is itself malformed: the
    validator raises [SchemaError], which [validate_message] does not
    catch. *)
Lemma validate_message_counterexample :
  validate_message (env collector_up)
    (VDict [("event", VStr "e")]) (VDict [("type", VInt 12)])
  = Raise (Exn SchemaError "type").
Proof. reflexivity. Qed.

Lemma emit_body_cases (L : externals) (now : datetime) (message : value)
    (self : UsageStatisticsHandler) :
  exists r message' self',
    emit_body L now (message, self) = (r, (message', self'))
    /\ (self' = self
        \/ (r = Ok tt /\ self' = put (Msg message') self
            /\ validate_message L message' (usage_statistics_record_schema L)
               = Ok true))
    /\ (validate_message L message' (usage_statistics_record_schema L)
        <> Ok true -> self' = self).
Proof.
  unfold emit_body, bind, read_message, read_self, write_message, lift_r, ret.
  cbn [fst snd].
  split_outcomes; cbn [fst snd];
    do 3 eexists; (split; [reflexivity|]);
    (split; [first [now left | right; auto] | ]);
    first [reflexivity | intros H; congruence].
Qed.

Lemma emit_returns (L : externals) (now : datetime) (message : value)
    (self : UsageStatisticsHandler) :
  exists (message' : value) (self' : UsageStatisticsHandler),
    emit L now (message, self) = (Ok tt, (message', self')).
Proof.
  destruct (emit_body_cases L now message self)
    as [r [message' [self' [Hrun _]]]].
  exists message', self'. unfold emit, try_except. rewrite Hrun.
  destruct r; [destruct a|]; reflexivity.
Qed.

(** C1.  On every message and every handler state [emit] returns [None];
    the handler is left as it was or has the message as [emit] left it
    appended to its queue, and it is left as it was whenever that message
    does not validate against the record schema. *)
Theorem emit_never_raises (L : externals) (now : datetime) (message : value)
    (self : UsageStatisticsHandler) :
  exists (message' : value) (self' : UsageStatisticsHandler),
    emit L now (message, self) = (Ok tt, (message', self'))
    /\ (self' = self \/ self' = put (Msg message') self)
    /\ (validate_message L message' (usage_statistics_record_schema L)
        <> Ok true -> self' = self).
Proof.
  destruct (emit_body_cases L now message self)
    as [r [message' [self' [Hrun [Hcases Hdrop]]]]].
  exists message', self'. unfold emit, try_except. rewrite Hrun.
  split.
  - destruct r; [destruct a|]; reflexivity.
  - split; [|exact Hdrop]. destruct Hcases as [H|[_ [H _]]]; auto.
Qed.




(** ** Properties of the queue and the worker *)

Lemma with_queue_same (h : UsageStatisticsHandler) :
  with_queue (_message_queue h ++ []) h = h.
Proof. destruct h. unfold with_queue. cbn. now rewrite app_nil_r. Qed.

Lemma emit_handler (L : externals) (now : datetime) (message : value)
    (self : UsageStatisticsHandler) :
  snd (snd (emit L now (message, self)))
  = with_queue (_message_queue self ++ map Msg (accepted L now message self))
      self.
Proof.
  unfold emit, try_except, emit_body, accepted, bind, bind_r, read_message,
    read_self, write_message, lift_r, ret.
  cbn [fst snd].
  split_outcomes; cbn [fst snd map];
    first [ now rewrite with_queue_same | reflexivity | congruence ].
Qed.

Lemma accepted_config (L : externals) (now : datetime) (message : value)
    (h g : UsageStatisticsHandler) :
  same_config h g -> accepted L now message h = accepted L now message g.
Proof.
  intros (Hu & Hi & Hn & Hc & Hv).
  unfold accepted, build_init_payload, build_envelope.
  now rewrite Hi, Hn, Hc, Hv.
Qed.

Lemma same_config_refl (h : UsageStatisticsHandler) : same_config h h.
Proof. repeat split. Qed.

Lemma messages_map_Msg (l : list value) : messages (map Msg l) = l.
Proof. induction l as [|m l IH]; simpl; congruence. Qed.

Lemma messages_app (q q' : list qitem) :
  messages (q ++ q') = messages q ++ messages q'.
Proof.
  induction q as [|[m|] q IH]; simpl; auto. now rewrite IH.
Qed.

(** The producers alone only lengthen the queue. *)
Lemma producers_extend (L : externals) (schedule : list action)
    (g : UsageStatisticsHandler) :
  exists more : list value,
    _message_queue (run L g (filter is_produce schedule))
    = _message_queue g ++ map Msg more
    /\ same_config g (run L g (filter is_produce schedule)).
Proof.
  revert g. induction schedule as [|[message now|] rest IH]; intros g.
  - exists []. simpl. rewrite app_nil_r. split; [reflexivity|].
    apply same_config_refl.
  - cbn [filter is_produce]. unfold run. cbn [fold_left act].
    rewrite emit_handler.
    destruct (IH (with_queue (_message_queue g
                              ++ map Msg (accepted L now message g)) g))
      as [more [Hq Hc]].
    exists (accepted L now message g ++ more).
    unfold run in Hq, Hc. split; [|exact Hc].
    rewrite Hq. cbn [with_queue _message_queue].
    now rewrite map_app, app_assoc.
  - cbn [filter is_produce]. apply IH.
Qed.

(** The handler under any interleaving of producers and worker turns, set
    against the handler under its producers alone: as long as the posts
    return, what the worker has posted and what is still queued make up what
    the producers have put. *)
Lemma run_coupled (L : externals) (schedule : list action) :
  forall (h g : UsageStatisticsHandler) (done pend : list value),
    same_config h g ->
    _worker h = Running ->
    _message_queue h = map Msg pend ->
    _message_queue g = map Msg (done ++ pend) ->
    posts h = done ->
    (forall m,
        In m (messages (_message_queue (run L g (filter is_produce schedule)))) ->
        exists code, session_post L (_url h) m = Ok code) ->
    exists done' pend' : list value,
      same_config h (run L h schedule)
      /\ _worker (run L h schedule) = Running
      /\ _message_queue (run L h schedule) = map Msg pend'
      /\ _message_queue (run L g (filter is_produce schedule))
         = map Msg (done' ++ pend')
      /\ posts (run L h schedule) = done'.
Proof.
  induction schedule as [|[message now|] rest IH];
    intros h g done pend Hc Hw Hq Hg Hp Hpost.
  - exists done, pend. cbn. auto using same_config_refl.
  - cbn [filter is_produce] in *. unfold run in *. cbn [fold_left act] in *.
    rewrite !emit_handler in *.
    rewrite <- (accepted_config L now message Hc) in *.
    set (acc := accepted L now message h) in *.
    destruct (IH (with_queue (_message_queue h ++ map Msg acc) h)
                 (with_queue (_message_queue g ++ map Msg acc) g)
                 done (pend ++ acc))
      as [done' [pend' (Hc' & Hw' & Hq' & Hg' & Hp')]]; auto.
    + cbn. now rewrite Hq, map_app.
    + cbn. now rewrite Hg, !map_app, app_assoc.
    + exists done', pend'. split; [exact Hc'|]. repeat split; auto.
  - cbn [filter is_produce] in *. unfold run in *. cbn [fold_left act] in *.
    unfold worker_turn. rewrite Hw, Hq.
    destruct pend as [|m pend]; cbn [map].
    + apply (IH h g done []); auto.
    + destruct (Hpost m) as [code Hcode].
      { destruct (producers_extend L rest g) as [more [Hmore _]].
        unfold run in Hmore. rewrite Hmore, Hg, messages_app, messages_map_Msg.
        apply in_or_app. left. apply in_or_app. right. now left. }
      rewrite Hcode.
      destruct (IH (with_worker Running (posts h ++ [m])
                      (with_queue (map Msg pend) h))
                   g (done ++ [m]) pend)
        as [done' [pend' (Hc' & Hw' & Hq' & Hg' & Hp')]]; auto.
      * now rewrite Hg, <- app_assoc.
      * cbn. now rewrite Hp.
      * exists done', pend'. split; [exact Hc'|]. repeat split; auto.
Qed.

(** Once the stop signal is behind the pending messages, [join] returns:
    the worker has posted them in queue order and left its loop. *)
Lemma join_drains (L : externals) (pend : list value) :
  forall (h : UsageStatisticsHandler) (fuel : nat),
    _worker h = Running ->
    _message_queue h = map Msg pend ++ [STOP_SIGNAL] ->
    (forall m, In m pend -> exists code, session_post L (_url h) m = Ok code) ->
    (List.length pend < fuel)%nat ->
    join L fuel h
    = Some (with_worker Exited (posts h ++ pend) (with_queue [] h)).
Proof.
  induction pend as [|m pend IH]; intros h fuel Hw Hq Hpost Hfuel;
    (destruct fuel as [|fuel]; [simpl in Hfuel; lia|]);
    cbn [join]; rewrite Hw; unfold worker_turn; rewrite Hw, Hq; cbn [map app].
  - destruct fuel; cbn; now rewrite app_nil_r.
  - destruct (Hpost m (or_introl eq_refl)) as [code ->].
    rewrite IH; cbn [_worker _message_queue _url posts with_worker with_queue].
    + now rewrite <- app_assoc.
    + reflexivity.
    + reflexivity.
    + intros m' Hm'. apply Hpost. now right.
    + simpl in Hfuel. lia.
Qed.



(** C3, as the code has it.  Take a handler fresh from its constructor and
    any interleaving of [emit] calls and worker turns, and suppose the post
    of every message that was put on the queue returns.  Then
    [_close_worker] puts one stop signal behind what is queued, where there
    was none, and returns with the worker out of its loop, the queue empty
    and the posts made being exactly the messages put on the queue before
    the shutdown, in the order they were put. *)
Theorem close_worker_drains (L : externals) (h0 : UsageStatisticsHandler)
    (schedule : list action) :
  _worker h0 = Running ->
  _message_queue h0 = [] ->
  posts h0 = [] ->
  (forall m, In m (enqueued L h0 schedule) ->
             exists code, session_post L (_url h0) m = Ok code) ->
  let h := run L h0 schedule in
  _message_queue (put STOP_SIGNAL h) = _message_queue h ++ [STOP_SIGNAL]
  /\ ~ In STOP_SIGNAL (_message_queue h)
  /\ exists h' : UsageStatisticsHandler,
       _close_worker L h = Some h'
       /\ _worker h' = Exited
       /\ _message_queue h' = []
       /\ posts h' = posts h ++ messages (_message_queue h)
       /\ posts h' = enqueued L h0 schedule.
Proof.
  intros Hw Hq Hp Hpost h.
  destruct (@run_coupled L schedule h0 h0 [] [])
    as [done [pend (Hc & Hw' & Hq' & Hg & Hp')]];
    auto using same_config_refl.
  fold h in Hc, Hw', Hq', Hp'.
  assert (Hall : enqueued L h0 schedule = done ++ pend).
  { unfold enqueued. now rewrite Hg, messages_map_Msg. }
  split; [reflexivity|]. split.
  - rewrite Hq'. intros Hin. apply in_map_iff in Hin.
    destruct Hin as [m [Hm _]]. discriminate Hm.
  - unfold _close_worker.
    rewrite (@join_drains L pend); cbn [put with_queue _worker _message_queue].
    + eexists. split; [reflexivity|]. cbn.
      rewrite Hq', messages_map_Msg, Hp', Hall. auto.
    + exact Hw'.
    + now rewrite Hq'.
    + intros m Hm. cbn. destruct Hc as [<- _]. apply Hpost.
      rewrite Hall. apply in_or_app. now right.
    + rewrite Hq', length_app, length_map. simpl. lia.
Qed.

(** With the collector answering, the three messages that validate are
    posted in order, the one that does not is never queued. *)
Lemma close_worker_drains_witness :
  let L := env collector_up in
  exists h' : UsageStatisticsHandler,
    _close_worker L (run L sample_handler sample_schedule) = Some h'
    /\ _worker h' = Exited
    /\ posts h' = enqueued L sample_handler sample_schedule
    /\ map (fun m => subscript m "event") (posts h')
       = [ Ok (VStr "data_context.open_data_docs");
           Ok (VStr "data_context.build_data_docs");
           Ok (VStr "data_context.save_expectation_suite") ].
Proof.
  intros L.
  destruct (close_worker_drains L sample_handler sample_schedule)
    as [_ [_ [h' [Hclose [Hworker [_ [_ Hposts]]]]]]].
  - reflexivity.
  - reflexivity.
  - reflexivity.
  - intros m _. exists 201%N. reflexivity.
  - exists h'. split; [exact Hclose|]. split; [exact Hworker|].
    split; [exact Hposts|]. rewrite Hposts. reflexivity.
Defined.

(** C3 as stated fails when a post raises: [_requests_worker] has no
    handler around [session.post], so the exception ends the worker thread
    at the first message; the second message and the stop signal stay on
    the queue, and [join] returns because the thread is dead. *)
Lemma close_worker_counterexample :
  let L := env collector_down in
  let schedule :=
    [ Produce (sample_message "data_context.open_data_docs") sample_time;
      Produce (sample_message "data_context.build_data_docs") sample_time ] in
  exists (h' : UsageStatisticsHandler) (m1 m2 : value),
    enqueued L sample_handler schedule = [m1; m2]
    /\ _close_worker L (run L sample_handler schedule) = Some h'
    /\ posts h' = [m1]
    /\ _message_queue h' = [Msg m2; STOP_SIGNAL]
    /\ _worker h' = Died (Exn ConnectionError "connection refused").
Proof.
  intros L schedule. vm_compute. do 3 eexists. repeat split.
Qed.

(** ** Properties of the interceptor *)

(** A payload contribution leaves [success] and [handler] alone. *)
Lemma contribute_locals (L : externals) (call : option (M world value))
    (fr fr' : frame) (r : result unit) :
  contribute L call fr = (r, fr') ->
  success fr' = success fr /\ handler fr' = handler fr.
Proof.
  unfold contribute. destruct call as [c|].
  - unfold bind, in_world, update_payload.
    destruct (c (globals fr)) as [[u|e] w1].
    + cbn. destruct (nested_update L (event_payload fr) u) as [r' d].
      intros H. injection H as _ <-. auto.
    + intros H. injection H as _ <-. auto.
  - intros H. injection H as _ <-. auto.
Qed.

Lemma get_usage_statistics_handler_kind (args : list value) (w : world) :
  get_usage_statistics_handler args w = VNone
  \/ exists hid, get_usage_statistics_handler args w = VHandler hid.
Proof.
  unfold get_usage_statistics_handler.
  destruct args as [|o args]; cbn; [now left|].
  destruct (getattr w o "_usage_statistics_handler" VNone); eauto.
Qed.

(** On a handler, [handler.emit(message)] returns. *)
Lemma handler_emit_returns (L : externals) (hid : nat) (message : value)
    (w : world) :
  fst (handler_emit L hid [message] w) = Ok tt.
Proof.
  unfold handler_emit.
  destruct (emit_returns L (utcnow w) message (handlers w hid))
    as [m' [h' H]].
  now rewrite H.
Qed.

(** C4, as the code has it.  Suppose the pre-call contribution, when there
    is one, is computed and merged without raising, the wrapped operation
    then returns [V], and the post-call contribution, when there is one, is
    computed and merged without raising.  Then the caller receives [V]; the
    handler is looked up on the first positional argument in the world the
    operation left behind; and when a handler is found there, [emit] has
    been called on it with the message made of the merged payload, the event
    name and [success] set to true. *)
Theorem wrapped_method_returns (L : externals) (func : pyfunc)
    (event_name : string) (args_payload_fn : option pyfunc)
    (result_payload_fn : option (value -> M world value))
    (args : list value) (kwargs : dict) (w : world)
    (fr1 fr3 : frame) (V : value) (w2 : world) :
  contribute L (option_map (fun f => f args kwargs) args_payload_fn) (entry w)
  = (Ok tt, fr1) ->
  func args kwargs (globals fr1) = (Ok V, w2) ->
  contribute L (option_map (fun f => f V) result_payload_fn)
    {| event_payload := event_payload fr1; success := None;
       handler := get_usage_statistics_handler args w2; globals := w2 |}
  = (Ok tt, fr3) ->
  usage_statistics_wrapped_method L func event_name args_payload_fn
    result_payload_fn args kwargs w
  = (Ok V,
     match get_usage_statistics_handler args w2 with
     | VHandler hid =>
         snd (handler_emit L hid
                [VDict [ ("event_payload", VDict (event_payload fr3));
                         ("event", VStr event_name);
                         ("success", VBool true) ]]
                (globals fr3))
     | _ => globals fr3
     end).
Proof.
  intros Hpre Hfunc Hpost.
  destruct (contribute_locals L _ _ Hpre) as [Hs1 Hh1].
  destruct (contribute_locals L _ _ Hpost) as [Hs3 Hh3].
  cbn [entry success handler] in Hs1, Hh1, Hs3, Hh3.
  unfold usage_statistics_wrapped_method, try_except, wrapped_try.
  fold (entry w). unfold bind at 1. rewrite Hpre.
  unfold bind at 1. unfold in_world at 1. rewrite Hfunc.
  unfold bind at 1. unfold bind at 1. unfold assign_handler.
  rewrite Hs1.
  unfold bind at 1. cbn [globals event_payload success handler].
  rewrite Hpost.
  unfold bind at 1. unfold set_success at 1.
  unfold bind at 1. unfold emit_message, message_of, ret.
  cbn [globals event_payload success handler app]. rewrite Hh3.
  destruct (get_usage_statistics_handler_kind args w2) as [->|[hid ->]].
  - reflexivity.
  - cbn [is_none negb]. unfold in_world, call_emit.
    cbn [globals event_payload success handler].
    pose proof (handler_emit_returns L hid
      (VDict [ ("event_payload", VDict (event_payload fr3));
               ("event", VStr event_name); ("success", VBool true) ])
      (globals fr3)) as Hemit.
    destruct (handler_emit L hid _ (globals fr3)) as [r w4].
    cbn [fst] in Hemit. subst r. reflexivity.
Qed.

(** The handler is absent before the call, installed by the operation, and
    found afterwards: the caller gets 42 and the success message is on the
    queue of handler 7. *)
Lemma wrapped_method_returns_witness :
  let L := env collector_up in
  get_usage_statistics_handler [VObj 0] sample_world = VNone
  /\ exists (w' : world) (m : value),
       usage_statistics_wrapped_method L open_context "data_context.open"
         None (Some report_result) [VObj 0] [] sample_world
       = (Ok (VInt 42), w')
       /\ _message_queue (handlers w' 7) = [Msg m]
       /\ subscript m "success" = Ok (VBool true)
       /\ subscript m "event_payload" = Ok (VDict [("n_assets", VInt 42)]).
Proof.
  intros L. split; [reflexivity|].
  pose proof (@wrapped_method_returns L open_context "data_context.open"
                None (Some report_result) [VObj 0] [] sample_world
                (entry sample_world)
                {| event_payload := [("n_assets", VInt 42)]; success := None;
                   handler := VHandler 7; globals := instrumented_world |}
                (VInt 42) instrumented_world eq_refl eq_refl eq_refl) as H.
  eexists. eexists. split; [exact H|].
  vm_compute. repeat split.
Defined.

(** C4 as stated fails when the post-call contribution raises: the wrapped
    operation has returned 42, yet the caller gets the [TypeError] of the
    payload function, and the message emitted says [success] false. *)
Lemma wrapped_method_returns_counterexample :
  let L := env collector_up in
  fst (open_context [VObj 0] [] sample_world) = Ok (VInt 42)
  /\ exists (w' : world) (m : value),
       usage_statistics_wrapped_method L open_context "data_context.open"
         None (Some measure_result) [VObj 0] [] sample_world
       = (Raise (Exn TypeError "object of type 'int' has no len()"), w')
       /\ _message_queue (handlers w' 7) = [Msg m]
       /\ subscript m "success" = Ok (VBool false).
Proof.
  intros L. split; [reflexivity|].
  eexists. eexists. split; [reflexivity|].
  vm_compute. repeat split.
Qed.

(** When the wrapped operation raises, the caller gets that exception and
    the world is as the operation left it: the handler is still unresolved
    in the [except] clause, so nothing is emitted. *)
Lemma wrapped_method_reraises (L : externals) (func : pyfunc)
    (event_name : string) (args_payload_fn : option pyfunc)
    (result_payload_fn : option (value -> M world value))
    (args : list value) (kwargs : dict) (w : world)
    (fr1 : frame) (e : exn) (w2 : world) :
  contribute L (option_map (fun f => f args kwargs) args_payload_fn) (entry w)
  = (Ok tt, fr1) ->
  func args kwargs (globals fr1) = (Raise e, w2) ->
  usage_statistics_wrapped_method L func event_name args_payload_fn
    result_payload_fn args kwargs w
  = (Raise e, w2).
Proof.
  intros Hpre Hfunc.
  destruct (contribute_locals L _ _ Hpre) as [_ Hh1].
  cbn [entry handler] in Hh1.
  unfold usage_statistics_wrapped_method, try_except, wrapped_try.
  fold (entry w). unfold bind at 1. rewrite Hpre.
  unfold bind at 1. unfold in_world at 1. rewrite Hfunc.
  unfold wrapped_except, bind, set_success, emit_message, raise.
  cbn [globals event_payload success handler]. rewrite Hh1. reflexivity.
Qed.

(** C2 at its failing input.  Object 0 holds handler 7, so a handler is
    resolvable from the first positional argument, and [emit] on the failure
    message would queue it; the wrapped operation raises, the caller gets
    that very exception, and the world is unchanged: no message was
    emitted. *)
Theorem wrapped_method_failure_unreported :
  let L := env collector_up in
  let failure :=
    VDict [ ("event_payload", VDict []); ("event", VStr "data_context.open");
            ("success", VBool false) ] in
  get_usage_statistics_handler [VObj 0] instrumented_world = VHandler 7
  /\ _message_queue (handlers instrumented_world 7) = []
  /\ List.length
       (_message_queue
          (handlers (snd (handler_emit L 7 [failure] instrumented_world)) 7))
     = 1%nat
  /\ usage_statistics_wrapped_method L failing_operation "data_context.open"
       None None [VObj 0] [] instrumented_world
     = (Raise (Exn RuntimeError "boom"), instrumented_world).
Proof.
  intros L failure.
  split; [reflexivity|]. split; [reflexivity|].
  split; [vm_compute; reflexivity|].
  now apply (@wrapped_method_reraises L failing_operation "data_context.open"
               None None [VObj 0] [] instrumented_world
               (entry instrumented_world)).
Qed.

(** C10.  [send_usage_message] returns [None] and leaves the world as it
    found it, whatever it is given: when the attribute read from the data
    context is a handler, the call of [emit] with the message and the
    payload schema raises [TypeError], which the catch-all discards. *)
Theorem send_usage_message_swallows (L : externals)
    (data_context event event_payload success payload_schema : value)
    (w : world) :
  send_usage_message L data_context event event_payload success payload_schema w
  = (Ok VNone, w)
  /\ (forall (hid : nat) (message : value),
        call_emit L (VHandler hid) [message; payload_schema] w
        = (Raise (Exn TypeError "emit() takes 2 positional arguments"), w)).
Proof.
  split; [|reflexivity].
  unfold send_usage_message, try_except, bind, call_emit, handler_emit, raise,
    ret.
  destruct (getattr w data_context "_usage_statistics_handler" VNone)
    as [| | | | | |r|hid]; cbn [is_none negb]; try reflexivity.
  destruct (dict_get "emit" (attrs w r)); reflexivity.
Qed.

(** ** Further properties of the anonymizer *)



(** What the loop and the fallback of [anonymize_object_info] compute. *)
Lemma anonymize_object_info_closed (self : Anonymizer) (object_class : pyclass)
    (info : dict) (ge_classes : list pyclass) :
  anonymize_object_info self object_class info ge_classes
  = Ok (let d := match find (issubclass object_class) ge_classes with
                 | Some g =>
                     let d := dict_set "parent_class" (VStr (__name__ g)) info in
                     if class_eq object_class g then d
                     else dict_set "anonymized_class"
                            (VStr (class_hash self object_class)) d
                 | None => info
                 end in
        if truthy_opt (dict_get "parent_class" d) then d
        else dict_set "anonymized_class" (VStr (class_hash self object_class))
               (dict_set "parent_class" (VStr "__not_recognized__") d)).
Proof.
  unfold anonymize_object_info. rewrite anonymize_object_info_loop_find.
  destruct (find (issubclass object_class) ge_classes) as [g|];
    cbv zeta; cbn [bind_r];
    match goal with
    | |- context [truthy_opt ?x] => destruct (truthy_opt x)
    end; reflexivity.
Qed.

(** X1.  The digest depends on the salt and the value only through their
    concatenation: the salt is not delimited from the value, so two
    anonymizers whose salt followed by the value spell the same string give
    the same digest. *)
Theorem anonymize_concatenation (a b : Anonymizer) (s t : string) :
  (_salt a ++ s)%string = (_salt b ++ t)%string ->
  anonymize a (VStr s) = anonymize b (VStr t).
Proof.
  intros H. unfold anonymize. now rewrite H.
Qed.

Lemma anonymize_concatenation_witness :
  anonymize {| _salt := "ab" |} (VStr "c") = anonymize {| _salt := "a" |} (VStr "bc").
Proof.
  apply (@anonymize_concatenation {| _salt := "ab" |} {| _salt := "a" |} "c" "bc").
  reflexivity.
Defined.



(** X3.  Whatever the object, the recognized classes and the dictionary
    passed in, the dictionary returned carries a [parent_class] that is
    truthy, and its [anonymized_class] is either what the caller's
    dictionary had under that key or the anonymized name of the object's
    class. *)
Theorem anonymize_object_info_parent_class (self : Anonymizer)
    (object_class : pyclass) (info : dict) (ge_classes : list pyclass) :
  exists (d : dict) (parent : value),
    anonymize_object_info self object_class info ge_classes = Ok d
    /\ dict_get "parent_class" d = Some parent
    /\ truthy parent = true
    /\ (dict_get "anonymized_class" d = dict_get "anonymized_class" info
        \/ dict_get "anonymized_class" d
           = Some (VStr (class_hash self object_class))).
Proof.
  rewrite anonymize_object_info_closed.
  set (h := VStr (class_hash self object_class)).
  set (d0 := match find (issubclass object_class) ge_classes with
             | Some g =>
                 let d := dict_set "parent_class" (VStr (__name__ g)) info in
                 if class_eq object_class g then d
                 else dict_set "anonymized_class" h d
             | None => info
             end).
  assert (H0 : dict_get "anonymized_class" d0 = dict_get "anonymized_class" info
               \/ dict_get "anonymized_class" d0 = Some h).
  { unfold d0. destruct (find (issubclass object_class) ge_classes) as [g|];
      [|now left].
    cbv zeta. destruct (class_eq object_class g).
    - left. now rewrite dict_get_set_other by discriminate.
    - right. apply dict_get_set_same. }
  cbv zeta.
  destruct (truthy_opt (dict_get "parent_class" d0)) eqn:T.
  - destruct (dict_get "parent_class" d0) as [parent|] eqn:P;
      [|discriminate T].
    exists d0, parent. auto.
  - eexists. exists (VStr "__not_recognized__").
    split; [reflexivity|]. split.
    + rewrite dict_get_set_other by discriminate. apply dict_get_set_same.
    + split; [reflexivity|]. right. apply dict_get_set_same.
Qed.

(** ** Further properties of the handler *)

Lemma map_r_returns {A B : Type} (f : A -> result B) (l : list A) :
  (exists ys, map_r f l = Ok ys) <-> Forall (fun x => exists y, f x = Ok y) l.
Proof.
  induction l as [|x l IH]; simpl.
  - split; [constructor|]. intros _. now exists [].
  - split.
    + intros [ys H]. destruct (f x) as [y|e] eqn:Hx; [|discriminate H].
      cbn [bind_r] in H. destruct (map_r f l) as [ys'|e] eqn:Hl;
        [|discriminate H].
      constructor; [now exists y|]. apply IH. now exists ys'.
    + intros H. inversion H as [|x' l' [y Hy] Hl]; subst.
      apply IH in Hl. destruct Hl as [ys Hys].
      exists (y :: ys). now rewrite Hy, Hys.
Qed.

(** X4.  [build_init_payload] returns exactly when the anonymizer of every
    datasource, of every store and of every validation operator of the data
    context returns; one descriptor that cannot be anonymized makes the
    whole payload fail. *)
Theorem build_init_payload_returns (L : externals)
    (self : UsageStatisticsHandler) :
  (exists p, build_init_payload L self = Ok p)
  <-> (Forall (fun kv =>
                 exists y, anonymize_datasource_info L (_data_context_id self)
                             (snd kv) = Ok y)
         (datasources (_data_context self))
       /\ Forall (fun kv =>
                    exists y, anonymize_store_info L (_data_context_id self)
                                (fst kv) (snd kv) = Ok y)
            (stores (_data_context self))
       /\ Forall (fun kv =>
                    exists y, anonymize_validation_operator_info L
                                (_data_context_id self) (fst kv) (snd kv)
                              = Ok y)
            (validation_operators (_data_context self))).
Proof.
  unfold build_init_payload.
  rewrite <- !map_r_returns.
  split.
  - intros [p H].
    destruct (map_r _ (datasources (_data_context self))) as [ds|e];
      [|discriminate H].
    destruct (map_r _ (stores (_data_context self))) as [ss|e];
      [|discriminate H].
    destruct (map_r _ (validation_operators (_data_context self))) as [vs|e];
      [|discriminate H].
    repeat split; eexists; reflexivity.
  - intros ([ds ->] & [ss ->] & [vs ->]). cbn [bind_r]. eexists. reflexivity.
Qed.

(** X5.  When the [event] of the message cannot be read (the message is no
    mapping, or has no such key), and when the event is the init event but
    the init payload cannot be built, [emit] returns with the caller's
    message and the handler exactly as they were. *)
Theorem emit_leaves_untouched (L : externals) (now : datetime)
    (message : value) (self : UsageStatisticsHandler) :
  (forall ev, subscript message "event" = Ok ev ->
              eq_str ev "data_context.__init__" = true
              /\ exists e, build_init_payload L self = Raise e) ->
  emit L now (message, self) = (Ok tt, (message, self)).
Proof.
  intros H.
  unfold emit, try_except, emit_body, bind, read_message, read_self, lift_r, ret.
  cbn [fst snd].
  destruct (subscript message "event") as [ev|e]; [|reflexivity].
  destruct (H ev eq_refl) as [-> [e ->]]. reflexivity.
Qed.

Lemma emit_leaves_untouched_witness :
  let L := env collector_up in
  emit L sample_time (sample_message "data_context.__init__", broken_handler)
  = (Ok tt, (sample_message "data_context.__init__", broken_handler)).
Proof.
  intros L.
  apply (emit_leaves_untouched L sample_time
           (sample_message "data_context.__init__") broken_handler).
  intros ev H. injection H as <-. split; [reflexivity|].
  eexists. reflexivity.
Defined.

(** X6.  For a mapping whose event is not the init event, [emit] leaves
    the caller's message enveloped in place whether or not it is queued:
    the message afterwards is the message with the five fields stamped, its
    [event], [event_payload] and [success] as they were, and this message is
    appended to the queue when it validates and dropped otherwise. *)
Theorem emit_envelopes_in_place (L : externals) (now : datetime) (d : dict)
    (self : UsageStatisticsHandler) (ev : value) :
  dict_get "event" d = Some ev ->
  eq_str ev "data_context.__init__" = false ->
  emit L now (VDict d, self)
  = (Ok tt,
     (VDict (stamped self now d),
      match validate_message L (VDict (stamped self now d))
              (usage_statistics_record_schema L) with
      | Ok true => put (Msg (VDict (stamped self now d))) self
      | _ => self
      end))
  /\ dict_get "event" (stamped self now d) = Some ev
  /\ dict_get "event_payload" (stamped self now d) = dict_get "event_payload" d
  /\ dict_get "success" (stamped self now d) = dict_get "success" d.
Proof.
  intros Hev Hinit. split.
  - unfold emit, try_except, emit_body, bind, read_message, read_self,
      write_message, lift_r, ret.
    cbn [fst snd subscript]. rewrite Hev, Hinit. cbn [fst snd].
    rewrite build_envelope_stamped.
    destruct (validate_message L _ (usage_statistics_record_schema L))
      as [[|]|e]; reflexivity.
  - rewrite !stamped_frame; auto;
      simpl; intros [H|[H|[H|[H|[H|[]]]]]]; discriminate H.
Qed.

(** A message without payload: it is dropped, and enveloped all the same. *)
Lemma emit_envelopes_in_place_witness :
  let L := env collector_up in
  exists m : value,
    emit L sample_time (VDict [("event", VStr "cli.suite.list")], sample_handler)
    = (Ok tt, (m, sample_handler))
    /\ subscript m "event_time" = Ok (VStr "2020-03-09T14:05:59.001Z")
    /\ subscript m "event" = Ok (VStr "cli.suite.list").
Proof.
  intros L.
  destruct (@emit_envelopes_in_place L sample_time
              [("event", VStr "cli.suite.list")] sample_handler
              (VStr "cli.suite.list") eq_refl eq_refl) as [H _].
  eexists. split; [exact H|]. split; reflexivity.
Defined.

Lemma worker_turn_conserves (L : externals) (h h' : UsageStatisticsHandler) :
  worker_turn L h = Some h' ->
  posts h' ++ messages (_message_queue h')
  = posts h ++ messages (_message_queue h)
  /\ same_config h h'.
Proof.
  unfold worker_turn.
  destruct (_worker h); try discriminate.
  destruct (_message_queue h) as [|[m|] q]; try discriminate.
  - destruct (session_post L (_url h) m); intros H; injection H as <-;
      cbn; rewrite <- app_assoc; repeat split.
  - intros H. injection H as <-. cbn. repeat split.
Qed.

Lemma coupled_run_conserved (L : externals) (schedule : list action) :
  forall (h g : UsageStatisticsHandler) (before : list value),
    same_config h g ->
    posts h ++ messages (_message_queue h)
    = before ++ messages (_message_queue g) ->
    posts (run L h schedule) ++ messages (_message_queue (run L h schedule))
    = before
      ++ messages (_message_queue (run L g (filter is_produce schedule))).
Proof.
  induction schedule as [|[message now|] rest IH]; intros h g before Hc Heq.
  - exact Heq.
  - cbn [filter is_produce]. unfold run in *. cbn [fold_left act].
    rewrite !emit_handler.
    rewrite <- (accepted_config L now message Hc).
    apply IH; [exact Hc|].
    cbn [with_queue posts _message_queue].
    rewrite !messages_app, !app_assoc. now rewrite Heq.
  - cbn [filter is_produce]. unfold run in *. cbn [fold_left act].
    destruct (worker_turn L h) as [h'|] eqn:Hturn; [|now apply IH].
    destruct (worker_turn_conserves L h Hturn) as [Hsame Hc'].
    apply IH.
    + destruct Hc as (? & ? & ? & ? & ?), Hc' as (? & ? & ? & ? & ?).
      repeat split; congruence.
    + now rewrite Hsame.
Qed.

(** X7.  Under every interleaving of [emit] calls and worker turns, and
    whatever the posts do, the posts made so far followed by the messages
    still on the queue are what had been posted at the start followed by
    the messages put on the queue, in that order: no message is posted
    twice, none leaves the queue without having been posted, and none is
    posted out of turn. *)
Theorem run_conserves (L : externals) (h : UsageStatisticsHandler)
    (schedule : list action) :
  posts (run L h schedule) ++ messages (_message_queue (run L h schedule))
  = posts h ++ enqueued L h schedule.
Proof.
  unfold enqueued.
  apply coupled_run_conserved; [apply same_config_refl|reflexivity].
Qed.

(** X8.  Once the worker thread has ended, nothing is posted any more: every
    later schedule leaves the posts as they are, and messages emitted from
    then on are put on the queue and stay there. *)
Theorem run_after_worker_ended (L : externals) (h : UsageStatisticsHandler)
    (schedule : list action) :
  _worker h <> Running ->
  posts (run L h schedule) = posts h
  /\ _worker (run L h schedule) = _worker h
  /\ messages (_message_queue (run L h schedule)) = enqueued L h schedule.
Proof.
  intros Hw.
  assert (Hrun : run L h schedule = run L h (filter is_produce schedule)
                 /\ posts (run L h schedule) = posts h
                 /\ _worker (run L h schedule) = _worker h).
  { revert h Hw. induction schedule as [|[message now|] rest IH]; intros h Hw.
    - auto.
    - cbn [filter is_produce]. unfold run in *. cbn [fold_left act].
      rewrite emit_handler.
      apply (IH (with_queue _ h)). exact Hw.
    - cbn [filter is_produce]. unfold run in *. cbn [fold_left act].
      assert (Hnone : worker_turn L h = None).
      { unfold worker_turn. destruct (_worker h); [now elim Hw| |]; reflexivity. }
      rewrite Hnone. now apply IH. }
  destruct Hrun as (Hrun & Hposts & Hworker).
  repeat split; auto. unfold enqueued. now rewrite <- Hrun.
Qed.

Lemma run_after_worker_ended_witness :
  let L := env collector_up in
  let h := with_worker Exited [] sample_handler in
  posts (run L h sample_schedule) = []
  /\ List.length (_message_queue (run L h sample_schedule)) = 3%nat.
Proof.
  intros L h.
  destruct (@run_after_worker_ended L h sample_schedule) as (Hp & _ & _).
  - discriminate.
  - split; [exact Hp|]. reflexivity.
Defined.


Lemma join_stops (L : externals) (oks : list value) :
  forall (h : UsageStatisticsHandler) (fuel : nat) (bad : value)
         (rest : list qitem) (e : exn),
    _worker h = Running ->
    _message_queue h = map Msg oks ++ Msg bad :: rest ->
    (forall m, In m oks -> exists code, session_post L (_url h) m = Ok code) ->
    session_post L (_url h) bad = Raise e ->
    (List.length oks < fuel)%nat ->
    join L fuel h
    = Some (with_worker (Died e) (posts h ++ oks ++ [bad]) (with_queue rest h)).
Proof.
  induction oks as [|m oks IH]; intros h fuel bad rest e Hw Hq Hok Hbad Hfuel;
    (destruct fuel as [|fuel]; [simpl in Hfuel; lia|]);
    cbn [join]; rewrite Hw; unfold worker_turn; rewrite Hw, Hq; cbn [map app].
  - rewrite Hbad. destruct fuel; reflexivity.
  - destruct (Hok m (or_introl eq_refl)) as [code ->].
    rewrite (IH _ fuel bad rest e);
      cbn [_worker _message_queue _url posts with_worker with_queue]; auto.
    + now rewrite <- app_assoc.
    + intros m' Hm'. apply Hok. now right.
    + simpl in Hfuel. lia.
Qed.

(** X10.  The worker stops at the first message whose post raises: when the
    queue holds messages whose posts return, then one whose post raises,
    then others, [_close_worker] returns with the worker thread ended by
    that exception, the posts made being the former and the failing one, and
    the others still on the queue in front of the stop signal, never
    attempted. *)
Theorem close_worker_stops_at_failure (L : externals)
    (h : UsageStatisticsHandler) (oks : list value) (bad : value)
    (rest : list value) (e : exn) :
  _worker h = Running ->
  _message_queue h = map Msg (oks ++ bad :: rest) ->
  (forall m, In m oks -> exists code, session_post L (_url h) m = Ok code) ->
  session_post L (_url h) bad = Raise e ->
  _close_worker L h
  = Some (with_worker (Died e) (posts h ++ oks ++ [bad])
            (with_queue (map Msg rest ++ [STOP_SIGNAL]) h)).
Proof.
  intros Hw Hq Hok Hbad. unfold _close_worker.
  rewrite (@join_stops L oks (put STOP_SIGNAL h) _ bad
             (map Msg rest ++ [STOP_SIGNAL]) e); auto.
  - cbn [put with_queue _message_queue]. rewrite Hq, map_app.
    cbn [map]. now rewrite <- app_assoc.
  - cbn [put with_queue _message_queue]. rewrite Hq.
    repeat (rewrite length_app || rewrite length_map). simpl. lia.
Qed.

Lemma close_worker_stops_at_failure_witness :
  let L := env collector_flaky in
  let h := with_queue (map Msg [sample_message "first"; sample_message "lost";
                                sample_message "third"]) sample_handler in
  exists h' : UsageStatisticsHandler,
    _close_worker L h = Some h'
    /\ posts h' = [sample_message "first"; sample_message "lost"]
    /\ _message_queue h' = [Msg (sample_message "third"); STOP_SIGNAL].
Proof.
  intros L h.
  pose proof (@close_worker_stops_at_failure L h [sample_message "first"]
                (sample_message "lost") [sample_message "third"]
                (Exn ConnectionError "connection reset")) as H.
  eexists. split.
  - apply H.
    + reflexivity.
    + reflexivity.
    + intros m [<-|[]]. exists 201%N. reflexivity.
    + reflexivity.
  - split; reflexivity.
Defined.


(** ** Further properties of the interceptor *)

(** X12.  [get_usage_statistics_handler] returns [None] or a
    [UsageStatisticsHandler], and it returns a handler exactly when there
    is a first positional argument, that argument is an object, and its
    [_usage_statistics_handler] attribute holds that handler; an attribute
    of any other kind is answered with [None]. *)
Theorem get_usage_statistics_handler_resolves (args : list value) (w : world) :
  (get_usage_statistics_handler args w = VNone
   \/ exists hid, get_usage_statistics_handler args w = VHandler hid)
  /\ forall hid : nat,
       get_usage_statistics_handler args w = VHandler hid
       <-> exists (r : nat) (rest : list value),
             args = VObj r :: rest
             /\ dict_get "_usage_statistics_handler" (attrs w r)
                = Some (VHandler hid).
Proof.
  split; [apply get_usage_statistics_handler_kind|].
  intros hid. unfold get_usage_statistics_handler, getattr.
  destruct args as [|o rest]; cbn [index0 bind_r].
  - split; [discriminate|]. intros (r & rest & H & _). discriminate H.
  - destruct o as [| | | | | |r|h];
      try (split; [discriminate|];
           intros (r' & rest' & H & _); discriminate H).
    destruct (dict_get "_usage_statistics_handler" (attrs w r)) as [v|] eqn:G.
    + split.
      * intros H. exists r, rest. split; [reflexivity|]. rewrite G.
        destruct v; try discriminate H. congruence.
      * intros (r' & rest' & H & G'). injection H as <- <-.
        rewrite G in G'. injection G' as ->. reflexivity.
    + split; [discriminate|].
      intros (r' & rest' & H & G'). injection H as <- <-.
      rewrite G in G'. discriminate G'.
Qed.

Lemma accepted_at_most_one (L : externals) (now : datetime) (message : value)
    (self : UsageStatisticsHandler) :
  (List.length (accepted L now message self) <= 1)%nat.
Proof.
  unfold accepted, bind_r. split_outcomes; simpl; lia.
Qed.

Lemma handler_emit_appends (L : externals) (hid : nat) (message : value)
    (w : world) :
  snd (handler_emit L hid [message] w)
  = set_handler hid
      (with_queue (_message_queue (handlers w hid)
                   ++ map Msg (accepted L (utcnow w) message (handlers w hid)))
         (handlers w hid))
      w.
Proof.
  unfold handler_emit.
  pose proof (emit_handler L (utcnow w) message (handlers w hid)) as H.
  destruct (emit L (utcnow w) (message, handlers w hid)) as [r [m' h]].
  cbn [snd] in *. now rewrite H.
Qed.

(** The wrapped method once the wrapped operation has returned, whatever
    becomes of the post-call contribution. *)
Lemma wrapped_method_after_return (L : externals) (func : pyfunc)
    (event_name : string) (args_payload_fn : option pyfunc)
    (result_payload_fn : option (value -> M world value))
    (args : list value) (kwargs : dict) (w : world)
    (fr1 fr3 : frame) (V : value) (w2 : world) (r3 : result unit) :
  contribute L (option_map (fun f => f args kwargs) args_payload_fn) (entry w)
  = (Ok tt, fr1) ->
  func args kwargs (globals fr1) = (Ok V, w2) ->
  contribute L (option_map (fun f => f V) result_payload_fn)
    {| event_payload := event_payload fr1; success := None;
       handler := get_usage_statistics_handler args w2; globals := w2 |}
  = (r3, fr3) ->
  usage_statistics_wrapped_method L func event_name args_payload_fn
    result_payload_fn args kwargs w
  = (match r3 with
     | Ok _ => Ok V
     | Raise e => Raise e
     end,
     match get_usage_statistics_handler args w2 with
     | VHandler hid =>
         snd (handler_emit L hid
                [VDict [ ("event_payload", VDict (event_payload fr3));
                         ("event", VStr event_name);
                         ("success",
                          VBool match r3 with
                                | Ok _ => true
                                | Raise _ => false
                                end) ]]
                (globals fr3))
     | _ => globals fr3
     end).
Proof.
  intros Hpre Hfunc Hpost.
  destruct (contribute_locals L _ _ Hpre) as [Hs1 Hh1].
  destruct (contribute_locals L _ _ Hpost) as [Hs3 Hh3].
  cbn [entry success handler] in Hs1, Hh1, Hs3, Hh3.
  unfold usage_statistics_wrapped_method, try_except, wrapped_try.
  fold (entry w). unfold bind at 1. rewrite Hpre.
  unfold bind at 1. unfold in_world at 1. rewrite Hfunc.
  unfold bind at 1. unfold bind at 1. unfold assign_handler.
  rewrite Hs1.
  unfold bind at 1. cbn [globals event_payload success handler].
  rewrite Hpost.
  destruct r3 as [[]|e].
  - unfold bind at 1. unfold set_success at 1.
    unfold bind at 1. unfold emit_message, message_of, ret.
    cbn [globals event_payload success handler app]. rewrite Hh3.
    destruct (get_usage_statistics_handler_kind args w2) as [->|[hid ->]];
      [reflexivity|].
    cbn [is_none negb]. unfold in_world, call_emit.
    cbn [globals event_payload success handler].
    pose proof (handler_emit_returns L hid
      (VDict [ ("event_payload", VDict (event_payload fr3));
               ("event", VStr event_name); ("success", VBool true) ])
      (globals fr3)) as Hemit.
    destruct (handler_emit L hid _ (globals fr3)) as [r w4].
    cbn [fst] in Hemit. subst r. reflexivity.
  - unfold wrapped_except, bind, set_success, emit_message, message_of, raise.
    cbn [globals event_payload success handler app]. rewrite Hh3.
    destruct (get_usage_statistics_handler_kind args w2) as [->|[hid ->]];
      [reflexivity|].
    cbn [truthy]. unfold in_world, call_emit.
    cbn [globals event_payload success handler].
    pose proof (handler_emit_returns L hid
      (VDict [ ("event_payload", VDict (event_payload fr3));
               ("event", VStr event_name); ("success", VBool false) ])
      (globals fr3)) as Hemit.
    destruct (handler_emit L hid _ (globals fr3)) as [r w4].
    cbn [fst] in Hemit. subst r. reflexivity.
Qed.

(** X13.  A method wrapped without payload functions gives its caller what
    the method itself gives, value or exception, in every case; and the
    world afterwards is the world the method left, except that, when the
    method returned and a handler is found on its first argument, the queue
    of that handler has grown by what [emit] accepted of the success
    message, which is one message at most.  Attributes, the clock and every
    other handler are untouched. *)
Theorem wrapped_method_transparent (L : externals) (func : pyfunc)
    (event_name : string) (args : list value) (kwargs : dict) (w : world) :
  let r := fst (func args kwargs w) in
  let w2 := snd (func args kwargs w) in
  let message :=
    VDict [ ("event_payload", VDict []); ("event", VStr event_name);
            ("success", VBool true) ] in
  usage_statistics_wrapped_method L func event_name None None args kwargs w
  = (r,
     match r, get_usage_statistics_handler args w2 with
     | Ok _, VHandler hid =>
         set_handler hid
           (with_queue
              (_message_queue (handlers w2 hid)
               ++ map Msg (accepted L (utcnow w2) message (handlers w2 hid)))
              (handlers w2 hid))
           w2
     | _, _ => w2
     end)
  /\ forall hid,
       (List.length (accepted L (utcnow w2) message (handlers w2 hid)) <= 1)%nat.
Proof.
  intros r w2 message. split; [|intros hid; apply accepted_at_most_one].
  subst r w2. destruct (func args kwargs w) as [[V|e] w2] eqn:Hfunc;
    cbn [fst snd].
  - rewrite (@wrapped_method_after_return L func event_name None None args
               kwargs w (entry w)
               {| event_payload := []; success := None;
                  handler := get_usage_statistics_handler args w2;
                  globals := w2 |}
               V w2 (Ok tt) eq_refl Hfunc eq_refl).
    cbn [globals event_payload].
    destruct (get_usage_statistics_handler args w2); try reflexivity.
    now rewrite handler_emit_appends.
  - now rewrite (@wrapped_method_reraises L func event_name None None args
                   kwargs w (entry w) e w2 eq_refl Hfunc).
Qed.

(** X14.  When the pre-call payload function raises, or its contribution
    cannot be merged, the wrapped operation is not run at all: whatever the
    operation is, the caller gets that exception, nothing is emitted, and
    the world is as the failed contribution left it. *)
Theorem wrapped_method_pre_call_failure (L : externals) (func : pyfunc)
    (event_name : string) (args_payload_fn : option pyfunc)
    (result_payload_fn : option (value -> M world value))
    (args : list value) (kwargs : dict) (w : world) (fr1 : frame) (e : exn) :
  contribute L (option_map (fun f => f args kwargs) args_payload_fn) (entry w)
  = (Raise e, fr1) ->
  usage_statistics_wrapped_method L func event_name args_payload_fn
    result_payload_fn args kwargs w
  = (Raise e, globals fr1).
Proof.
  intros Hpre.
  destruct (contribute_locals L _ _ Hpre) as [_ Hh1].
  cbn [entry handler] in Hh1.
  unfold usage_statistics_wrapped_method, try_except, wrapped_try.
  fold (entry w). unfold bind at 1. rewrite Hpre.
  unfold wrapped_except, bind, set_success, emit_message, raise.
  cbn [globals event_payload success handler]. rewrite Hh1. reflexivity.
Qed.

(** The operation would raise [RuntimeError]; it is the [TypeError] of the
    payload function that comes out, on a world with a handler in place. *)
Lemma wrapped_method_pre_call_failure_witness :
  let L := env collector_up in
  usage_statistics_wrapped_method L failing_operation "data_context.open"
    (Some (fun _ _ => measure_result VNone)) None [VObj 0] [] instrumented_world
  = (Raise (Exn TypeError "object of type 'int' has no len()"),
     instrumented_world).
Proof.
  intros L.
  apply (@wrapped_method_pre_call_failure L failing_operation
           "data_context.open" (Some (fun _ _ => measure_result VNone)) None
           [VObj 0] [] instrumented_world
           {| event_payload := []; success := None; handler := VNone;
              globals := instrumented_world |}).
  reflexivity.
Defined.

(** X15.  When the wrapped operation has returned and the post-call payload
    function then raises, or its contribution cannot be merged, the caller
    gets that exception in place of the value; and when a handler is found
    on the first argument, [emit] has been called on it with a message whose
    [success] is false, although the operation succeeded. *)
Theorem wrapped_method_post_call_failure (L : externals) (func : pyfunc)
    (event_name : string) (args_payload_fn : option pyfunc)
    (result_payload_fn : option (value -> M world value))
    (args : list value) (kwargs : dict) (w : world)
    (fr1 fr3 : frame) (V : value) (w2 : world) (e : exn) :
  contribute L (option_map (fun f => f args kwargs) args_payload_fn) (entry w)
  = (Ok tt, fr1) ->
  func args kwargs (globals fr1) = (Ok V, w2) ->
  contribute L (option_map (fun f => f V) result_payload_fn)
    {| event_payload := event_payload fr1; success := None;
       handler := get_usage_statistics_handler args w2; globals := w2 |}
  = (Raise e, fr3) ->
  usage_statistics_wrapped_method L func event_name args_payload_fn
    result_payload_fn args kwargs w
  = (Raise e,
     match get_usage_statistics_handler args w2 with
     | VHandler hid =>
         snd (handler_emit L hid
                [VDict [ ("event_payload", VDict (event_payload fr3));
                         ("event", VStr event_name);
                         ("success", VBool false) ]]
                (globals fr3))
     | _ => globals fr3
     end).
Proof.
  intros Hpre Hfunc Hpost.
  exact (@wrapped_method_after_return L func event_name args_payload_fn
           result_payload_fn args kwargs w fr1 fr3 V w2 (Raise e)
           Hpre Hfunc Hpost).
Qed.

Lemma wrapped_method_post_call_failure_witness :
  let L := env collector_up in
  exists (w' : world) (m : value),
    usage_statistics_wrapped_method L open_context "data_context.open"
      None (Some measure_result) [VObj 0] [] sample_world
    = (Raise (Exn TypeError "object of type 'int' has no len()"), w')
    /\ _message_queue (handlers w' 7) = [Msg m]
    /\ subscript m "success" = Ok (VBool false).
Proof.
  intros L.
  pose proof (@wrapped_method_post_call_failure L open_context
                "data_context.open" None (Some measure_result) [VObj 0] []
                sample_world (entry sample_world)
                {| event_payload := []; success := None;
                   handler := VHandler 7; globals := instrumented_world |}
                (VInt 42) instrumented_world
                (Exn TypeError "object of type 'int' has no len()")
                eq_refl eq_refl eq_refl) as H.
  eexists. eexists. split; [exact H|].
  vm_compute. repeat split.
Defined.

(** ** Properties of the registry of anonymizers *)




(** The payload part of the function, for the anonymizer it settled on. *)
Lemma payload_from_built (a : Anonymizer) (name assets : value) :
  exists payload : dict,
    (let '(_, payload) :=
       (_ <- except_TypeError
               (fun payload =>
                  match anonymize a name with
                  | Ok h =>
                      (Ok tt,
                       dict_set "anonymized_operator_name" (VStr h) payload)
                  | Raise e => (Raise e, payload)
                  end) ;;
        except_TypeError
          (fun payload =>
             match len assets with
             | Ok n => (Ok tt, dict_set "n_assets" (VInt n) payload)
             | Raise e => (Raise e, payload)
             end)) ([] : dict) in
     payload) = payload
    /\ payload_from a name assets (VDict payload).
Proof.
  assert (Hlen : forall c msg, len assets = Raise (Exn c msg) -> c = TypeError)
    by (destruct assets; cbn; congruence).
  unfold payload_from, except_TypeError, try_except, bind, ret, raise.
  destruct (len assets) as [n|[c msg]].
  - destruct name; cbn [anonymize exn_type exn_class_eqb];
      eexists; split; try reflexivity; split; reflexivity.
  - rewrite (Hlen c msg eq_refl).
    destruct name; cbn [anonymize exn_type exn_class_eqb];
      eexists; split; try reflexivity; split; reflexivity.
Qed.


Lemma run_validation_operator_created (w : world)
    (data_context name assets : value) (p : process) :
  hashable (context_id w data_context) = true ->
  registry_find (context_id w data_context) (_anonymizers p) = None ->
  let id := context_id w data_context in
  let a := Anonymizer_init id (token_hex p (drawn p)) in
  let p' :=
    {| _anonymizers := registry_store id a (_anonymizers p);
       token_hex := token_hex p;
       drawn := match id with
                | VStr _ => drawn p
                | _ => Datatypes.S (drawn p)
                end |} in
  exists v,
    run_validation_operator_usage_statistics w data_context name assets p
    = (Ok v, p')
    /\ payload_from a name assets v.
Proof.
  intros Hk Hfind id a p'.
  destruct (payload_from_built a name assets) as [payload [Hp Hfrom]].
  exists (VDict payload). split; [|exact Hfrom].
  unfold run_validation_operator_usage_statistics.
  fold (context_id w data_context). fold id.
  unfold bind at 1. unfold registry_get. fold id in Hk, Hfind.
  rewrite Hk, Hfind.
  unfold bind at 1. unfold bind at 1. unfold new_Anonymizer, registry_set, ret.
  assert (Hnew :
    (match id with
     | VStr _ => (Ok (Anonymizer_init id ""), p)
     | _ =>
         (Ok (Anonymizer_init id (token_hex p (drawn p))),
          {| _anonymizers := _anonymizers p; token_hex := token_hex p;
             drawn := Datatypes.S (drawn p) |})
     end)
    = (Ok a,
       {| _anonymizers := _anonymizers p; token_hex := token_hex p;
          drawn := match id with
                   | VStr _ => drawn p
                   | _ => Datatypes.S (drawn p)
                   end |})).
  { subst a. destruct id; try reflexivity. destruct p; reflexivity. }
  rewrite Hnew. unfold bind at 1.
  cbn [_anonymizers token_hex drawn].
  match goal with
  | |- context [bind ?x ?k []] => destruct (bind x k []) as [r q]
  end.
  now rewrite Hp.
Qed.




(** X18.  For a data context not yet in the registry, the salt of its
    anonymizer is its id when the id is a string, and no randomness is read;
    for any other id, and for a data context without id, the salt is a
    fresh random token. *)
Theorem anonymizer_salt_of_context (w : world)
    (data_context assets : value) (n : string) (p : process) :
  hashable (context_id w data_context) = true ->
  registry_find (context_id w data_context) (_anonymizers p) = None ->
  exists (v : value) (p' : process),
    run_validation_operator_usage_statistics w data_context (VStr n) assets p
    = (Ok v, p')
    /\ match context_id w data_context with
       | VStr s =>
           subscript v "anonymized_operator_name"
           = Ok (VStr (Md5.hexdigest (encode_utf8 (s ++ n))))
           /\ drawn p' = drawn p
       | _ =>
           subscript v "anonymized_operator_name"
           = Ok (VStr (Md5.hexdigest
                         (encode_utf8 (token_hex p (drawn p) ++ n))))
           /\ drawn p' = Datatypes.S (drawn p)
       end.
Proof.
  intros Hk Hfind.
  destruct (run_validation_operator_created w data_context (VStr n) assets p
              Hk Hfind) as [v [Hrun [Hname _]]].
  eexists. eexists. split; [exact Hrun|].
  rewrite Hname. cbn [drawn].
  destruct (context_id w data_context); split; reflexivity.
Qed.

(** Object 1 has no [data_context_id]: the first token is its salt. *)
Lemma anonymizer_salt_of_context_witness :
  exists (v : value) (p' : process),
    run_validation_operator_usage_statistics context_world (VObj 1)
      (VStr "action_list_operator") VNone fresh_process
    = (Ok v, p')
    /\ subscript v "anonymized_operator_name"
       = Ok (VStr (Md5.hexdigest
                     (encode_utf8 "00112233445566ffaction_list_operator")))
    /\ drawn p' = 1%nat.
Proof.
  destruct (@anonymizer_salt_of_context context_world (VObj 1) VNone
              "action_list_operator" fresh_process eq_refl eq_refl)
    as (v & p' & Hrun & Hsalt & Hdrawn).
  exists v, p'. split; [exact Hrun|]. split; [exact Hsalt|exact Hdrawn].
Defined.

(** ** A further property of the envelope *)

Lemma digit_inj (a b : N) : digit a = digit b -> (a mod 10 = b mod 10)%N.
Proof.
  unfold digit. intros H. apply (f_equal N_of_ascii) in H.
  pose proof (N.mod_lt a 10). pose proof (N.mod_lt b 10).
  rewrite !N_ascii_embedding in H by lia. lia.
Qed.

Lemma last_digit_step (a b : N) :
  (a mod 10 = b mod 10 -> a / 10 = b / 10 -> a = b)%N.
Proof.
  intros Hm Hd.
  rewrite (N.div_mod a 10), (N.div_mod b 10) by discriminate.
  now rewrite Hm, Hd.
Qed.

Lemma top_digit (a : N) : (a < 10 -> a mod 10 = a)%N.
Proof. intros H. now apply N.mod_small. Qed.

Lemma two_digits (a b : N) :
  (a < 100 -> b < 100 ->
   a mod 10 = b mod 10 -> (a / 10) mod 10 = (b / 10) mod 10 -> a = b)%N.
Proof.
  intros Ha Hb H0 H1. apply last_digit_step; [exact H0|].
  rewrite !top_digit in H1; auto; apply N.Div0.div_lt_upper_bound; lia.
Qed.

Lemma three_digits (a b : N) :
  (a < 1000 -> b < 1000 ->
   a mod 10 = b mod 10 -> (a / 10) mod 10 = (b / 10) mod 10 ->
   (a / 10 / 10) mod 10 = (b / 10 / 10) mod 10 -> a = b)%N.
Proof.
  intros Ha Hb H0 H1 H2. apply last_digit_step; [exact H0|].
  apply two_digits; auto; apply N.Div0.div_lt_upper_bound; lia.
Qed.

Lemma four_digits (a b : N) :
  (a < 10000 -> b < 10000 ->
   a mod 10 = b mod 10 -> (a / 10) mod 10 = (b / 10) mod 10 ->
   (a / 10 / 10) mod 10 = (b / 10 / 10) mod 10 ->
   (a / 10 / 10 / 10) mod 10 = (b / 10 / 10 / 10) mod 10 -> a = b)%N.
Proof.
  intros Ha Hb H0 H1 H2 H3. apply last_digit_step; [exact H0|].
  apply three_digits; auto; apply N.Div0.div_lt_upper_bound; lia.
Qed.

Lemma iso_millis_to_the_millisecond (t t' : datetime) :
  valid_datetime t ->
  valid_datetime t' ->
  (iso_millis t = iso_millis t'
   <-> (year t = year t' /\ month t = month t' /\ day t = day t'
        /\ hour t = hour t' /\ minute t = minute t' /\ second t = second t'
        /\ microsecond t / 1000 = microsecond t' / 1000)%N).
Proof.
  intros Ht Ht'. unfold valid_datetime in Ht, Ht'. split.
  - intros H. unfold iso_millis in H.
    apply (f_equal list_ascii_of_string) in H.
    rewrite !list_ascii_of_string_of_list_ascii in H.
    cbn [digits app] in H.
    injection H as Y1 Y2 Y3 Y4 M1 M2 D1 D2 H1 H2 I1 I2 S1 S2 U1 U2 U3.
    apply digit_inj in Y1, Y2, Y3, Y4, M1, M2, D1, D2, H1, H2, I1, I2, S1, S2,
      U1, U2, U3.
    assert (Hu : (microsecond t / 1000 < 1000 /\ microsecond t' / 1000 < 1000)%N).
    { split; apply N.Div0.div_lt_upper_bound; lia. }
    destruct Hu as [Hu Hu'].
    repeat split;
      first [ apply four_digits; auto; lia
            | apply three_digits; auto; lia
            | apply two_digits; auto; lia ].
  - unfold iso_millis. intros (-> & -> & -> & -> & -> & -> & ->).
    reflexivity.
Qed.

(** X19.  Two envelopes of one message are equal exactly when the two
    clock readings agree on the date and on the time down to the
    millisecond: [event_time] loses the microseconds below the millisecond
    and nothing else. *)
Theorem event_time_to_the_millisecond (self : UsageStatisticsHandler)
    (d : dict) (t t' : datetime) :
  valid_datetime t ->
  valid_datetime t' ->
  (build_envelope self (VDict d) t = build_envelope self (VDict d) t'
   <-> (year t = year t' /\ month t = month t' /\ day t = day t'
        /\ hour t = hour t' /\ minute t = minute t' /\ second t = second t'
        /\ microsecond t / 1000 = microsecond t' / 1000)%N).
Proof.
  intros Ht Ht'.
  rewrite <- (iso_millis_to_the_millisecond Ht Ht').
  rewrite !build_envelope_stamped. split.
  - intros H. injection H as H.
    destruct (stamped_fields self t d) as [_ [E _]].
    destruct (stamped_fields self t' d) as [_ [E' _]].
    rewrite H in E. congruence.
  - intros H. unfold stamped. now rewrite H.
Qed.

Lemma event_time_to_the_millisecond_witness :
  build_envelope sample_handler (sample_message "e") sample_time
  = build_envelope sample_handler (sample_message "e")
      {| year := 2020; month := 3; day := 9; hour := 14; minute := 5;
         second := 59; microsecond := 1000 |}.
Proof.
  apply (@event_time_to_the_millisecond sample_handler
           [ ("event", VStr "e"); ("event_payload", VDict []);
             ("success", VBool true) ]
           sample_time
           {| year := 2020; month := 3; day := 9; hour := 14; minute := 5;
              second := 59; microsecond := 1000 |}).
  - unfold valid_datetime. cbn. lia.
  - unfold valid_datetime. cbn. lia.
  - repeat split.
Defined.
